(** * Script bindings over items, monsters and vocations

    A shallow embedding of the Lua binding layer of the server
    (item_functions.cpp, monster_functions.cpp, vocation_functions.cpp and
    creaturecallback.cpp).  Every binding is a C function over a Lua stack:
    it reads its arguments by index, calls into the game objects, pushes its
    results and returns how many of them the script receives.  The embedding
    keeps that shape: a binding is a computation in a state monad over the
    Lua stack, the userdata blocks, the game objects, the script environments
    and the error log, and it returns the number of results. *)

From Stdlib Require Import ZArith QArith Qround Ascii Lqa.
From stdpp Require Import base gmap strings list pretty.

Local Open Scope Z_scope.

(** ** Lua numbers

    A [lua_Number] is a C [double].  A finite double denotes a rational
    number; [std::floor] and [<] are exact on doubles, so they are modelled on
    the rational a double denotes, and every statement proved for all
    rationals holds for all finite doubles. *)

Inductive lua_Number :=
  | Finite (q : Q)
  | PlusInfinity
  | MinusInfinity
  | NaN.

(** [std::floor]: the largest integral value not above the argument;
    infinities and NaN are returned as they are. *)
Definition std_floor (x : lua_Number) : lua_Number :=
  match x with
  | Finite q => Finite (inject_Z (Qfloor q))
  | _ => x
  end.

(** The comparison [x < y] of two doubles (false as soon as one is NaN). *)
Definition number_ltb (x y : lua_Number) : bool :=
  match x, y with
  | NaN, _ | _, NaN => false
  | Finite p, Finite q => negb (Qle_bool q p)
  | MinusInfinity, (Finite _ | PlusInfinity) => true
  | Finite _, PlusInfinity => true
  | _, _ => false
  end.

(** The integer types the bindings marshal numbers into. *)
Inductive ctype := uint8_t | uint16_t | uint32_t | int32_t | int64_t.

Definition ctype_min (T : ctype) : Z :=
  match T with
  | uint8_t | uint16_t | uint32_t => 0
  | int32_t => - 2 ^ 31
  | int64_t => - 2 ^ 63
  end.

Definition ctype_max (T : ctype) : Z :=
  match T with
  | uint8_t => 2 ^ 8 - 1
  | uint16_t => 2 ^ 16 - 1
  | uint32_t => 2 ^ 32 - 1
  | int32_t => 2 ^ 31 - 1
  | int64_t => 2 ^ 63 - 1
  end.

Definition in_range (T : ctype) (z : Z) : bool :=
  (ctype_min T <=? z) && (z <=? ctype_max T).

(** Truncation toward zero, the integral part a floating-integral conversion
    keeps. *)
Definition Qtruncate (q : Q) : Z := Z.quot (Qnum q) (Z.pos (Qden q)).

(** ** Lua values and userdata *)

Inductive lua_value :=
  | LNil
  | LBoolean (b : bool)
  | LNumber (n : lua_Number)
  | LString (s : string)
  | LUserdata (addr : nat)
  | LFunction (functionId : Z).

(** A userdata block holds a [std::shared_ptr] to a game object ([None] is the
    null pointer) and the name of the metatable attached to it. *)
Record Userdata := mkUserdata {
  ptr : option nat;
  metatable : option string;
}.

(** ** Items *)

(** The attribute keys.  The enumerators the bindings name are listed; the
    remaining ones are kept by category. *)
Inductive ItemAttribute_t :=
  | NONE
  | ACTIONID
  | UNIQUEID
  | FLUIDTYPE
  | DURATION
  | DECAYSTATE
  | DURATION_TIMESTAMP
  | OTHER_INTEGER (code : positive)
  | OTHER_STRING (code : positive).

Global Instance ItemAttribute_t_eq_dec : EqDecision ItemAttribute_t.
Proof. solve_decision. Defined.

Definition ItemAttribute_t_encode (a : ItemAttribute_t) : nat + (positive + positive) :=
  match a with
  | NONE => inl 0%nat
  | ACTIONID => inl 1%nat
  | UNIQUEID => inl 2%nat
  | FLUIDTYPE => inl 3%nat
  | DURATION => inl 4%nat
  | DECAYSTATE => inl 5%nat
  | DURATION_TIMESTAMP => inl 6%nat
  | OTHER_INTEGER c => inr (inl c)
  | OTHER_STRING c => inr (inr c)
  end.

Definition ItemAttribute_t_decode (x : nat + (positive + positive)) : ItemAttribute_t :=
  match x with
  | inl 0%nat => NONE
  | inl 1%nat => ACTIONID
  | inl 2%nat => UNIQUEID
  | inl 3%nat => FLUIDTYPE
  | inl 4%nat => DURATION
  | inl 5%nat => DECAYSTATE
  | inl _ => DURATION_TIMESTAMP
  | inr (inl c) => OTHER_INTEGER c
  | inr (inr c) => OTHER_STRING c
  end.

Global Instance ItemAttribute_t_countable : Countable ItemAttribute_t.
Proof.
  apply (inj_countable' ItemAttribute_t_encode ItemAttribute_t_decode).
  by intros [].
Defined.

(** Modelled from the spec: the split of the typed attributes into an
    integer-valued and a string-valued category (spec 4.3); the table itself
    lives in the item attribute class, which is not among the sources.  The
    keys the bindings read or switch on as integers (action id, unique id,
    fluid type, duration, decay state, duration timestamp) are integer-valued. *)
Definition isAttributeInteger (a : ItemAttribute_t) : bool :=
  match a with
  | ACTIONID | UNIQUEID | FLUIDTYPE | DURATION | DECAYSTATE
  | DURATION_TIMESTAMP | OTHER_INTEGER _ => true
  | NONE | OTHER_STRING _ => false
  end.

(** Modelled from the spec: the string-valued category of spec 4.3. *)
Definition isAttributeString (a : ItemAttribute_t) : bool :=
  match a with
  | OTHER_STRING _ => true
  | _ => false
  end.

Inductive AttributeValue :=
  | IntegerValue (z : Z)
  | StringValue (s : string).

(** Modelled from the spec: a custom attribute is a discriminated union with
    exactly one of four kinds active (spec 3). *)
Inductive CustomAttribute :=
  | CustomInt64 (n : Z)
  | CustomDouble (d : lua_Number)
  | CustomString (s : string)
  | CustomBool (b : bool).

(** Modelled from the spec: the decay states of spec 3 under the names the
    bindings use for them (None is DECAYING_FALSE, InProgress is
    DECAYING_TRUE). *)
Inductive ItemDecayState_t :=
  | DECAYING_FALSE
  | DECAYING_TRUE
  | DECAYING_PENDING
  | DECAYING_STOPPING
  | DECAYING_STOPPED.

Global Instance ItemDecayState_t_eq_dec : EqDecision ItemDecayState_t.
Proof. solve_decision. Defined.

(** The holder of an item: none, the sentinel virtual cylinder of detached
    items, or a container, tile or creature of the world. *)
Inductive Cylinder :=
  | NoParent
  | VirtualCylinder
  | Holder (c : nat).

(** Modelled from the spec: the item of spec 3 (identity, typed attributes,
    the open custom-attribute map, the parent back-reference, the stack count
    and the decay state); the Item class is not among the sources. *)
Record Item := mkItem {
  item_id : Z;
  item_count : Z;
  attributes : gmap ItemAttribute_t AttributeValue;
  customAttributeMap : gmap string CustomAttribute;
  decaying : ItemDecayState_t;
  parent : Cylinder;
}.

Definition Item_setItemCount (n : Z) (it : Item) : Item :=
  mkItem (item_id it) n (attributes it) (customAttributeMap it) (decaying it) (parent it).

Definition Item_setParent (c : Cylinder) (it : Item) : Item :=
  mkItem (item_id it) (item_count it) (attributes it) (customAttributeMap it) (decaying it) c.

Definition Item_setDecaying (s : ItemDecayState_t) (it : Item) : Item :=
  mkItem (item_id it) (item_count it) (attributes it) (customAttributeMap it) s (parent it).

Definition Item_setAttribute (a : ItemAttribute_t) (v : AttributeValue) (it : Item) : Item :=
  mkItem (item_id it) (item_count it) (<[a := v]> (attributes it))
         (customAttributeMap it) (decaying it) (parent it).

Definition Item_removeAttribute (a : ItemAttribute_t) (it : Item) : Item :=
  mkItem (item_id it) (item_count it) (delete a (attributes it))
         (customAttributeMap it) (decaying it) (parent it).

Definition Item_setDuration (d : Z) (it : Item) : Item :=
  Item_setAttribute DURATION (IntegerValue d) it.

Definition Item_getCustomAttribute (key : string) (it : Item) : option CustomAttribute :=
  customAttributeMap it !! key.

Definition Item_setCustomAttribute (key : string) (v : CustomAttribute) (it : Item) : Item :=
  mkItem (item_id it) (item_count it) (attributes it)
         (<[key := v]> (customAttributeMap it)) (decaying it) (parent it).

(** ** Monsters and vocations *)

Inductive CreatureIconModifications_t := Influenced | Fiendish.

Global Instance CreatureIconModifications_t_eq_dec : EqDecision CreatureIconModifications_t.
Proof. solve_decision. Defined.

(** [CreatureIcon(modification, count)]: the icon kind and its badge. *)
Record CreatureIcon := mkCreatureIcon {
  modification : CreatureIconModifications_t;
  badge : Z;
}.

(** Modelled from the spec: the monster of spec 3 and 4.5 (the hazard flags,
    the forge stack and the icons derived from it); the Monster class is not
    among the sources. *)
Record Monster := mkMonster {
  monster_name : string;
  forgeStack : Z;
  creatureIcons : gmap string CreatureIcon;
  hazard : bool;
  hazardCrit : bool;
  hazardDodge : bool;
  hazardDamageBoost : bool;
  hazardDefenseBoost : bool;
}.

Definition Monster_setForgeStack (s : Z) (m : Monster) : Monster :=
  mkMonster (monster_name m) s (creatureIcons m) (hazard m) (hazardCrit m)
            (hazardDodge m) (hazardDamageBoost m) (hazardDefenseBoost m).

Definition Monster_setIcon (key : string) (icon : CreatureIcon) (m : Monster) : Monster :=
  mkMonster (monster_name m) (forgeStack m) (<[key := icon]> (creatureIcons m)) (hazard m)
            (hazardCrit m) (hazardDodge m) (hazardDamageBoost m) (hazardDefenseBoost m).

Definition Monster_setHazard (b : bool) (m : Monster) : Monster :=
  mkMonster (monster_name m) (forgeStack m) (creatureIcons m) b (hazardCrit m)
            (hazardDodge m) (hazardDamageBoost m) (hazardDefenseBoost m).

Definition Monster_setHazardSystemCrit (b : bool) (m : Monster) : Monster :=
  mkMonster (monster_name m) (forgeStack m) (creatureIcons m) (hazard m) b
            (hazardDodge m) (hazardDamageBoost m) (hazardDefenseBoost m).

Definition Monster_setHazardSystemDodge (b : bool) (m : Monster) : Monster :=
  mkMonster (monster_name m) (forgeStack m) (creatureIcons m) (hazard m) (hazardCrit m)
            b (hazardDamageBoost m) (hazardDefenseBoost m).

Definition Monster_setHazardSystemDamageBoost (b : bool) (m : Monster) : Monster :=
  mkMonster (monster_name m) (forgeStack m) (creatureIcons m) (hazard m) (hazardCrit m)
            (hazardDodge m) b (hazardDefenseBoost m).

Definition Monster_setHazardSystemDefenseBoost (b : bool) (m : Monster) : Monster :=
  mkMonster (monster_name m) (forgeStack m) (creatureIcons m) (hazard m) (hazardCrit m)
            (hazardDodge m) (hazardDamageBoost m) b.

Record Vocation := mkVocation {
  vocation_id : Z;
}.

(** ** The game objects

    Objects are held through shared pointers, so a non-null pointer always
    designates an object: the three stores are total.  [notifications]
    records, in order, the synchronous calls to the map and client
    collaborators. *)

Inductive Notification :=
  | TileFlagsUpdated (item : nat)
  | CreatureIconUpdated (creature : nat)
  | CreatureUpdated (creature : nat).

Record Game := mkGame {
  items : nat → Item;
  monsters : nat → Monster;
  vocations : nat → Vocation;
  notifications : list Notification;
}.

Definition Game_updateItem (r : nat) (f : Item → Item) (g : Game) : Game :=
  mkGame (λ r', if decide (r' = r) then f (items g r') else items g r')
         (monsters g) (vocations g) (notifications g).

Definition Game_updateMonster (r : nat) (f : Monster → Monster) (g : Game) : Game :=
  mkGame (items g)
         (λ r', if decide (r' = r) then f (monsters g r') else monsters g r')
         (vocations g) (notifications g).

Definition Game_notify (n : Notification) (g : Game) : Game :=
  mkGame (items g) (monsters g) (vocations g) (notifications g ++ [n]).

(** ** Script environments *)

(** Modelled from the spec: the per-invocation scope of spec 3 and 4.2, with
    its handle map, the temporary items of the call and the script
    identifier; the ScriptEnvironment class is not among the sources. *)
Record ScriptEnvironment := mkScriptEnvironment {
  scriptId : Z;
  localMap : gmap Z nat;
  lastUID : Z;
  tempItems : list nat;
}.

Definition emptyScriptEnvironment : ScriptEnvironment :=
  mkScriptEnvironment (-1) ∅ 0 [].

(** The handle an item currently holds in a handle map, if any. *)
Definition handle_of (m : gmap Z nat) (item : nat) : option Z :=
  (λ r : nat * (Z * nat), r.2.1) <$> list_find (λ kv : Z * nat, kv.2 = item) (map_to_list m).

(** Modelled from the spec: [addHandle] of spec 4.2 (the source calls it
    [addThing]): the item's current handle if it has one, otherwise a handle
    allocated on this first request. *)
Definition ScriptEnvironment_addThing (item : nat) (env : ScriptEnvironment) : Z * ScriptEnvironment :=
  match handle_of (localMap env) item with
  | Some uid => (uid, env)
  | None =>
      let uid := lastUID env + 1 in
      (uid, mkScriptEnvironment (scriptId env) (<[uid := item]> (localMap env)) uid (tempItems env))
  end.

(** Modelled from the spec: [resolve] of spec 4.2 ([getItemByUID]). *)
Definition ScriptEnvironment_getItemByUID (uid : Z) (env : ScriptEnvironment) : option nat :=
  localMap env !! uid.

(** Modelled from the spec: removal of a handle, step (4) of spec 4.2
    ([removeItemByUID]). *)
Definition ScriptEnvironment_removeItemByUID (uid : Z) (env : ScriptEnvironment) : ScriptEnvironment :=
  mkScriptEnvironment (scriptId env) (delete uid (localMap env)) (lastUID env) (tempItems env).

(** Modelled from the spec: [rebind] of spec 4.2 ([insertItem]): the handle
    now resolves to the new item. *)
Definition ScriptEnvironment_insertItem (uid : Z) (item : nat) (env : ScriptEnvironment) : ScriptEnvironment :=
  mkScriptEnvironment (scriptId env) (<[uid := item]> (localMap env)) (lastUID env) (tempItems env).

(** Modelled from the spec: [addTemporary] of spec 4.2 ([addTempItem]). *)
Definition ScriptEnvironment_addTempItem (item : nat) (env : ScriptEnvironment) : ScriptEnvironment :=
  mkScriptEnvironment (scriptId env) (localMap env) (lastUID env) (tempItems env ++ [item]).

Definition ScriptEnvironment_setScriptId (id : Z) (env : ScriptEnvironment) : ScriptEnvironment :=
  mkScriptEnvironment id (localMap env) (lastUID env) (tempItems env).

(** ** The state a binding runs in *)

(** A line of the server log: the format string and its arguments. *)
Record LogLine := mkLogLine {
  format : string;
  arguments : list string;
}.

Record State := mkState {
  stack : list lua_value;          (* the Lua stack of the running C function *)
  udata : list Userdata;           (* the userdata blocks, by address *)
  game : Game;
  envs : list ScriptEnvironment;   (* the reserved environments, innermost first *)
  errors : list string;            (* what reportErrorFunc was given *)
  logger : list LogLine;           (* what g_logger().error was given *)
}.

Definition set_stack (s : list lua_value) (st : State) : State :=
  mkState s (udata st) (game st) (envs st) (errors st) (logger st).

Definition set_udata (u : list Userdata) (st : State) : State :=
  mkState (stack st) u (game st) (envs st) (errors st) (logger st).

Definition set_game (g : Game) (st : State) : State :=
  mkState (stack st) (udata st) g (envs st) (errors st) (logger st).

Definition set_envs (e : list ScriptEnvironment) (st : State) : State :=
  mkState (stack st) (udata st) (game st) e (errors st) (logger st).

Definition set_errors (e : list string) (st : State) : State :=
  mkState (stack st) (udata st) (game st) (envs st) e (logger st).

Definition set_logger (l : list LogLine) (st : State) : State :=
  mkState (stack st) (udata st) (game st) (envs st) (errors st) l.

(** The environment of the running call ([getScriptEnv]).  Bindings run
    inside a reserved environment; the accessors are total all the same. *)
Definition getScriptEnv (st : State) : ScriptEnvironment :=
  hd emptyScriptEnvironment (envs st).

Definition setScriptEnv (env : ScriptEnvironment) (st : State) : State :=
  set_envs (env :: tl (envs st)) st.

(** ** The state monad of a binding *)

Definition M (A : Type) : Type := State → A * State.

Definition ret {A} (a : A) : M A := λ st, (a, st).

Definition bind {A B} (m : M A) (f : A → M B) : M B :=
  λ st, let '(a, st') := m st in f a st'.

Declare Scope M_scope.
Delimit Scope M_scope with M.
Bind Scope M_scope with M.
Notation "x ← y ; z" := (bind y (λ x, z))
  (at level 20, y at level 100, z at level 200, only parsing) : M_scope.
Notation "y ;; z" := (bind y (λ _, z))
  (at level 100, z at level 200, only parsing, right associativity) : M_scope.
Local Open Scope M_scope.

Definition gets {A} (f : State → A) : M A := λ st, (f st, st).

Definition modify (f : State → State) : M unit := λ st, ((), f st).

Definition when (b : bool) (m : M unit) : M unit := if b then m else ret ().

(** ** Collaborators

    What the bindings call and the sources do not define: the marshalling
    glue of the scripting runtime, the item templates, and the game and decay
    engines.  Nothing is assumed about them. *)

Inductive ErrorCode_t :=
  | LUA_ERROR_ITEM_NOT_FOUND
  | LUA_ERROR_MONSTER_NOT_FOUND
  | LUA_ERROR_PLAYER_NOT_FOUND.

Record ItemType := mkItemType {
  stackable : bool;
  stackSize : Z;
}.

Class Collaborators := {
  (* scripting runtime *)
  lua_str2number : string → lua_Number;        (* a string read as a number *)
  lua_number2str : lua_Number → string;        (* a number read as a string *)
  cast_unspecified : ctype → lua_Number → Z;   (* conversions C++ leaves open *)
  toItemAttribute : lua_Number → ItemAttribute_t;
  stringToItemAttribute : string → ItemAttribute_t;
  toItemDecayState : lua_Number → ItemDecayState_t;
  CustomAttribute_pushToLua : CustomAttribute → lua_value;
  itemMetatable : Game → nat → string;
  getErrorDesc : ErrorCode_t → string;
  scriptEnvMax : nat;                          (* the maximum nesting depth *)
  (* item templates and item methods *)
  Items_getItemIdByName : string → Z;
  Items_at : Z → ItemType;
  Item_isStackable : Item → bool;
  Item_getSubType : Item → Z;
  Item_isRemoved : Game → nat → bool;
  Item_clone : nat → Game → option nat * Game;
  (* game and decay engines *)
  Game_transformItem : nat → Z → Z → Game → option nat * Game;
  Decay_startDecay : nat → Game → Game;
  Decay_stopDecay : nat → Game → Game;
}.

(** ** The exposed bindings

    Every function the three binding files register, by its name without the
    [lua] prefix. *)
Inductive Binding :=
  (* item_functions.cpp *)
  | ItemCreate | ItemIsItem | ItemGetContainer | ItemGetParent | ItemGetTopParent
  | ItemGetId | ItemClone | ItemSplit | ItemRemove | ItemGetUniqueId
  | ItemGetActionId | ItemSetActionId | ItemGetCount | ItemGetCharges
  | ItemGetFluidType | ItemGetWeight | ItemGetSubType | ItemGetName
  | ItemGetPluralName | ItemGetArticle | ItemGetPosition | ItemGetTile
  | ItemHasAttribute | ItemGetAttribute | ItemSetAttribute | ItemRemoveAttribute
  | ItemGetCustomAttribute | ItemSetCustomAttribute | ItemRemoveCustomAttribute
  | ItemCanBeMoved | ItemSerializeAttributes | ItemMoveTo | ItemTransform
  | ItemDecay | ItemMoveToSlot | ItemGetDescription | ItemHasProperty
  | ItemGetImbuement | ItemGetImbuementSlot | ItemSetDuration | ItemIsInsideDepot
  | ItemIsContainer | ItemGetTier | ItemSetTier | ItemGetClassification
  | ItemCanReceiveAutoCarpet | ItemSetOwner | ItemGetOwnerId | ItemIsOwner
  | ItemGetOwnerName | ItemHasOwner
  (* monster_functions.cpp *)
  | MonsterCreate | MonsterIsMonster | MonsterGetType | MonsterSetType
  | MonsterGetSpawnPosition | MonsterIsInSpawnRange | MonsterIsIdle | MonsterSetIdle
  | MonsterIsTarget | MonsterIsOpponent | MonsterIsFriend | MonsterAddFriend
  | MonsterRemoveFriend | MonsterGetFriendList | MonsterGetFriendCount
  | MonsterAddTarget | MonsterRemoveTarget | MonsterGetTargetList
  | MonsterGetTargetCount | MonsterChangeTargetDistance | MonsterIsChallenged
  | MonsterSelectTarget | MonsterSearchTarget | MonsterSetSpawnPosition
  | MonsterGetRespawnType | MonsterGetTimeToChangeFiendish
  | MonsterSetTimeToChangeFiendish | MonsterGetMonsterForgeClassification
  | MonsterSetMonsterForgeClassification | MonsterGetForgeStack
  | MonsterSetForgeStack | MonsterConfigureForgeSystem | MonsterClearFiendishStatus
  | MonsterIsForgeable | MonsterGetName | MonsterSetName | MonsterHazard
  | MonsterHazardCrit | MonsterHazardDodge | MonsterHazardDamageBoost
  | MonsterHazardDefenseBoost | MonsterAddReflectElement | MonsterAddDefense
  | MonsterGetDefense | MonsterIsDead | MonsterImmune
  (* vocation_functions.cpp *)
  | VocationCreate | VocationGetId | VocationGetClientId | VocationGetBaseId
  | VocationGetName | VocationGetDescription | VocationGetRequiredSkillTries
  | VocationGetRequiredManaSpent | VocationGetCapacityGain | VocationGetHealthGain
  | VocationGetHealthGainTicks | VocationGetHealthGainAmount | VocationGetManaGain
  | VocationGetManaGainTicks | VocationGetManaGainAmount | VocationGetMaxSoul
  | VocationGetSoulGainTicks | VocationGetBaseAttackSpeed | VocationGetAttackSpeed
  | VocationGetBaseSpeed | VocationGetDemotion | VocationGetPromotion.

(** The two bindings that answer whether their argument is an object of
    their class. *)
Definition is_class_test (b : Binding) : bool :=
  match b with
  | ItemIsItem | MonsterIsMonster => true
  | _ => false
  end.

Section Bindings.
Context {C : Collaborators}.

(** [static_cast<T>] of a double: the truncated value when it fits [T]. *)
Definition static_cast (T : ctype) (x : lua_Number) : Z :=
  match x with
  | Finite q =>
      if in_range T (Qtruncate q) then Qtruncate q else cast_unspecified T x
  | _ => cast_unspecified T x
  end.

(** [std::to_string] of a 64-bit integer: its decimal rendering. *)
Definition to_string (n : Z) : string := pretty n.

(** *** Reading the Lua stack

    The Lua C API as the bindings use it ([lua_gettop], [lua_type],
    [lua_tonumber], [lua_toboolean], [lua_tolstring], [lua_touserdata]) and
    the one-line wrappers of the function loader over it ([isNumber],
    [getNumber<T>], [getString], [getUserdataShared<T>], ...). *)

Definition lua_gettop : M nat := gets (λ st, length (stack st)).

(** The value at a positive index, [LNil] where the stack has none. *)
Definition lua_value_at (arg : nat) : M lua_value :=
  gets (λ st, default LNil (stack st !! pred arg)).

Definition lua_tonumber (v : lua_value) : lua_Number :=
  match v with
  | LNumber n => n
  | LString s => lua_str2number s
  | _ => Finite 0
  end.

Definition lua_toboolean (v : lua_value) : bool :=
  match v with
  | LNil | LBoolean false => false
  | _ => true
  end.

Definition lua_tostring (v : lua_value) : string :=
  match v with
  | LString s => s
  | LNumber n => lua_number2str n
  | _ => ""
  end.

Definition isNumber (arg : nat) : M bool :=
  v ← lua_value_at arg;
  ret (match v with LNumber _ => true | _ => false end).

Definition isString (arg : nat) : M bool :=
  v ← lua_value_at arg;
  ret (match v with LString _ | LNumber _ => true | _ => false end).

Definition isBoolean (arg : nat) : M bool :=
  v ← lua_value_at arg;
  ret (match v with LBoolean _ => true | _ => false end).

Definition getNumber (T : ctype) (arg : nat) : M Z :=
  v ← lua_value_at arg;
  ret (static_cast T (lua_tonumber v)).

(** [getNumber<T>(L, arg, defaultValue)]. *)
Definition getNumberD (T : ctype) (arg : nat) (defaultValue : Z) : M Z :=
  parameters ← lua_gettop;
  if decide (parameters = 0%nat ∨ (parameters < arg)%nat) then ret defaultValue
  else getNumber T arg.

Definition getNumber_double (arg : nat) : M lua_Number :=
  v ← lua_value_at arg;
  ret (lua_tonumber v).

Definition getNumber_ItemAttribute (arg : nat) : M ItemAttribute_t :=
  v ← lua_value_at arg;
  ret (toItemAttribute (lua_tonumber v)).

Definition getNumber_ItemDecayState (arg : nat) : M ItemDecayState_t :=
  v ← lua_value_at arg;
  ret (toItemDecayState (lua_tonumber v)).

Definition getBoolean (arg : nat) : M bool :=
  v ← lua_value_at arg;
  ret (lua_toboolean v).

Definition getBooleanD (arg : nat) (defaultValue : bool) : M bool :=
  parameters ← lua_gettop;
  if decide (parameters = 0%nat ∨ (parameters < arg)%nat) then ret defaultValue
  else getBoolean arg.

Definition getString (arg : nat) : M string :=
  v ← lua_value_at arg;
  ret (lua_tostring v).

(** [getRawUserDataShared<T>(L, arg)]: the address of the shared pointer kept
    in the userdata at [arg], null when the value is no userdata. *)
Definition getRawUserDataShared (arg : nat) : M (option nat) :=
  v ← lua_value_at arg;
  match v with
  | LUserdata a => gets (λ st, if decide (a < length (udata st))%nat then Some a else None)
  | _ => ret None
  end.

(** [*itemPtr]. *)
Definition deref (a : nat) : M (option nat) :=
  gets (λ st, udata st !! a ≫= ptr).

(** [*itemPtr = p]. *)
Definition assign (a : nat) (p : option nat) : M unit :=
  modify (λ st, set_udata (alter (λ u, mkUserdata p (metatable u)) a (udata st)) st).

(** [getUserdataShared<T>(L, arg)]: the shared pointer kept in the userdata at
    [arg], null when there is none. *)
Definition getUserdataShared (arg : nat) : M (option nat) :=
  p ← getRawUserDataShared arg;
  match p with
  | Some a => deref a
  | None => ret None
  end.

(** *** Writing the Lua stack *)

Definition push (v : lua_value) : M unit :=
  modify (λ st, set_stack (stack st ++ [v]) st).

Definition lua_pushnil : M unit := push LNil.

Definition lua_pushnumber (n : lua_Number) : M unit := push (LNumber n).

Definition pushBoolean (b : bool) : M unit := push (LBoolean b).

Definition pushString (s : string) : M unit := push (LString s).

(** [pushUserdata<T>(L, p)]: a new userdata block holding [p], pushed. *)
Definition pushUserdata (p : nat) : M unit :=
  modify (λ st, set_stack (stack st ++ [LUserdata (length (udata st))])
                  (set_udata (udata st ++ [mkUserdata (Some p) None]) st)).

(** [setMetatable(L, -1, name)]: tags the userdata on top of the stack. *)
Definition setMetatable (name : string) : M unit :=
  modify (λ st,
    match last (stack st) with
    | Some (LUserdata a) =>
        set_udata (alter (λ u, mkUserdata (ptr u) (Some name)) a (udata st)) st
    | _ => st
    end).

(** [setItemMetatable(L, -1, item)]: the metatable of the item's class. *)
Definition setItemMetatable (item : nat) : M unit :=
  name ← gets (λ st, itemMetatable (game st) item);
  setMetatable name.

Definition reportErrorFunc (msg : string) : M unit :=
  modify (λ st, set_errors (errors st ++ [msg]) st).

(** *** Calling into the game *)

Definition readItem (item : nat) : M Item := gets (λ st, items (game st) item).

Definition updateItem (item : nat) (f : Item → Item) : M unit :=
  modify (λ st, set_game (Game_updateItem item f (game st)) st).

Definition readMonster (m : nat) : M Monster := gets (λ st, monsters (game st) m).

Definition updateMonster (m : nat) (f : Monster → Monster) : M unit :=
  modify (λ st, set_game (Game_updateMonster m f (game st)) st).

Definition withGame {A} (f : Game → A * Game) : M A :=
  λ st, let '(a, g) := f (game st) in (a, set_game g st).

Definition onGame (f : Game → Game) : M unit :=
  modify (λ st, set_game (f (game st)) st).

Definition isRemoved (item : nat) : M bool :=
  gets (λ st, Item_isRemoved (game st) item).

Definition updateTileFlags (item : nat) : M unit :=
  onGame (Game_notify (TileFlagsUpdated item)).

Definition onScriptEnv (f : ScriptEnvironment → ScriptEnvironment) : M unit :=
  modify (λ st, setScriptEnv (f (getScriptEnv st)) st).

Definition env_addThing (item : nat) : M Z :=
  λ st, let '(uid, env) := ScriptEnvironment_addThing item (getScriptEnv st) in
        (uid, setScriptEnv env st).

(** The run of a binding on the arguments a script passes: the results the
    script receives are the topmost values of the stack, as many as the
    binding returns; the caller's own stack is as before. *)
Definition call (f : M nat) (args : list lua_value) (st : State) : list lua_value * State :=
  let '(n, st') := f (set_stack args st) in
  (drop (length (stack st') - n) (stack st'), set_stack (stack st) st').

(** ** Item bindings (item_functions.cpp) *)

Definition quote : string := String "034"%char "".

(** The attribute key at [arg], as every attribute binding reads it: a
    number is converted to the enumeration, a string is looked up by name,
    anything else is [NONE]. *)
Definition attributeArg (arg : nat) : M ItemAttribute_t :=
  byNumber ← isNumber arg;
  if byNumber then getNumber_ItemAttribute arg
  else
    byString ← isString arg;
    if byString then s ← getString arg; ret (stringToItemAttribute s)
    else ret NONE.

Definition luaItemCreate : M nat :=
  id ← getNumber uint32_t 2;
  item ← gets (λ st, ScriptEnvironment_getItemByUID id (getScriptEnv st));
  match item with
  | Some item => pushUserdata item;; setItemMetatable item;; ret 1%nat
  | None => lua_pushnil;; ret 1%nat
  end.

Definition luaItemIsItem : M nat :=
  item ← getUserdataShared 1;
  pushBoolean (bool_decide (item ≠ None));;
  ret 1%nat.

Definition luaItemSplit : M nat :=
  itemPtr ← getRawUserDataShared 1;
  match itemPtr with
  | None => lua_pushnil;; ret 1%nat
  | Some itemPtr =>
    item ← deref itemPtr;
    match item with
    | None => lua_pushnil;; ret 1%nat
    | Some item =>
      it ← readItem item;
      removed ← isRemoved item;
      if negb (Item_isStackable it) || removed then lua_pushnil;; ret 1%nat
      else
        requested ← getNumberD uint16_t 2 1;
        let count := Z.min requested (item_count it) in
        let diff := (item_count it - count) `mod` 2 ^ 16 in
        splitItem ← withGame (Item_clone item);
        match splitItem with
        | None => lua_pushnil;; ret 1%nat
        | Some splitItem =>
          updateItem splitItem (Item_setItemCount count);;
          uid ← env_addThing item;
          current ← readItem item;
          newItem ← withGame (Game_transformItem item (item_id current) diff);
          removed ← isRemoved item;
          when removed (onScriptEnv (ScriptEnvironment_removeItemByUID uid));;
          match newItem with
          | Some new =>
              when (bool_decide (new ≠ item)) (onScriptEnv (ScriptEnvironment_insertItem uid new))
          | None => ret ()
          end;;
          assign itemPtr newItem;;
          updateItem splitItem (Item_setParent VirtualCylinder);;
          onScriptEnv (ScriptEnvironment_addTempItem splitItem);;
          pushUserdata splitItem;;
          setItemMetatable splitItem;;
          ret 1%nat
        end
    end
  end.

Definition luaItemSetAttribute : M nat :=
  item ← getUserdataShared 1;
  match item with
  | None => lua_pushnil;; ret 1%nat
  | Some item =>
    attribute ← attributeArg 2;
    if isAttributeInteger attribute then
      match attribute with
      | DECAYSTATE =>
          decayState ← getNumber_ItemDecayState 3;
          (if bool_decide (decayState = DECAYING_FALSE ∨ decayState = DECAYING_STOPPING)
           then onGame (Decay_stopDecay item)
           else onGame (Decay_startDecay item));;
          pushBoolean true;;
          ret 1%nat
      | DURATION =>
          updateItem item (Item_setDecaying DECAYING_PENDING);;
          duration ← getNumber int32_t 3;
          updateItem item (Item_setDuration duration);;
          onGame (Decay_startDecay item);;
          pushBoolean true;;
          ret 1%nat
      | DURATION_TIMESTAMP =>
          reportErrorFunc ("Attempt to set protected key " +:+ quote +:+ "duration timestamp" +:+ quote);;
          pushBoolean false;;
          ret 1%nat
      | _ =>
          value ← getNumber int64_t 3;
          updateItem item (Item_setAttribute attribute (IntegerValue value));;
          updateTileFlags item;;
          pushBoolean true;;
          ret 1%nat
      end
    else if isAttributeString attribute then
      newAttributeString ← getString 3;
      updateItem item (Item_setAttribute attribute (StringValue newAttributeString));;
      updateTileFlags item;;
      pushBoolean true;;
      ret 1%nat
    else
      lua_pushnil;; ret 1%nat
  end.

(** [ret_] is the [ret] of the source: whether the key may be erased. *)
Definition luaItemRemoveAttribute : M nat :=
  item ← getUserdataShared 1;
  match item with
  | None => lua_pushnil;; ret 1%nat
  | Some item =>
    attribute ← attributeArg 2;
    ret_ ← (if bool_decide (attribute ≠ UNIQUEID) then
                  if bool_decide (attribute ≠ DURATION_TIMESTAMP) then
                    updateItem item (Item_removeAttribute attribute);;
                    ret true
                  else
                    reportErrorFunc ("Attempt to erase protected key " +:+ quote +:+ "duration timestamp" +:+ quote);;
                    ret false
                else
                  reportErrorFunc ("Attempt to erase protected key " +:+ quote +:+ "uid" +:+ quote);;
                  ret false);
    pushBoolean ret_;;
    ret 1%nat
  end.

(** The key is the decimal rendering of the number at index 2, or the string
    there; with neither, the binding returns nil before it looks anything up. *)
Definition luaItemGetCustomAttribute : M nat :=
  item ← getUserdataShared 1;
  match item with
  | None => lua_pushnil;; ret 1%nat
  | Some item =>
    byNumber ← isNumber 2;
    byString ← isString 2;
    if byNumber || byString then
      key ← (if byNumber then n ← getNumber int64_t 2; ret (to_string n) else getString 2);
      it ← readItem item;
      match Item_getCustomAttribute key it with
      | Some customAttribute => push (CustomAttribute_pushToLua customAttribute);; ret 1%nat
      | None => lua_pushnil;; ret 1%nat
      end
    else
      (* neither a number nor a string *)
      lua_pushnil;; ret 1%nat
  end.

(** The key is read as in [luaItemGetCustomAttribute]; the value is tested as
    a number, then a string, then a boolean, and anything else returns nil. *)
Definition luaItemSetCustomAttribute : M nat :=
  item ← getUserdataShared 1;
  match item with
  | None => lua_pushnil;; ret 1%nat
  | Some item =>
    byNumber ← isNumber 2;
    byString ← isString 2;
    if byNumber || byString then
      key ← (if byNumber then n ← getNumber int64_t 2; ret (to_string n) else getString 2);
      valueIsNumber ← isNumber 3;
      valueIsString ← isString 3;
      valueIsBoolean ← isBoolean 3;
      if valueIsNumber then
        doubleValue ← getNumber_double 3;
        (if number_ltb (std_floor doubleValue) doubleValue then
           updateItem item (Item_setCustomAttribute key (CustomDouble doubleValue))
         else
           int64 ← getNumber int64_t 3;
           updateItem item (Item_setCustomAttribute key (CustomInt64 int64)));;
        pushBoolean true;; ret 1%nat
      else if valueIsString then
        stringValue ← getString 3;
        updateItem item (Item_setCustomAttribute key (CustomString stringValue));;
        pushBoolean true;; ret 1%nat
      else if valueIsBoolean then
        boolValue ← getBoolean 3;
        updateItem item (Item_setCustomAttribute key (CustomBool boolValue));;
        pushBoolean true;; ret 1%nat
      else
        lua_pushnil;; ret 1%nat
    else
      lua_pushnil;; ret 1%nat
  end.

Definition luaItemTransform : M nat :=
  itemPtr ← getRawUserDataShared 1;
  match itemPtr with
  | None => lua_pushnil;; ret 1%nat
  | Some itemPtr =>
    item ← deref itemPtr;
    match item with
    | None => lua_pushnil;; ret 1%nat
    | Some item =>
      byNumber ← isNumber 2;
      itemId ← (if byNumber then getNumber uint16_t 2
                else name ← getString 2; ret (Items_getItemIdByName name));
      if negb byNumber && (itemId =? 0) then lua_pushnil;; ret 1%nat
      else
        subType ← getNumberD int32_t 3 (-1);
        it ← readItem item;
        if (item_id it =? itemId) && ((subType =? -1) || (subType =? Item_getSubType it))
        then pushBoolean true;; ret 1%nat
        else
          let subType :=
            if stackable (Items_at itemId) then Z.min subType (stackSize (Items_at itemId))
            else subType in
          uid ← env_addThing item;
          newItem ← withGame (Game_transformItem item itemId subType);
          removed ← isRemoved item;
          when removed (onScriptEnv (ScriptEnvironment_removeItemByUID uid));;
          match newItem with
          | Some new =>
              when (bool_decide (new ≠ item)) (onScriptEnv (ScriptEnvironment_insertItem uid new))
          | None => ret ()
          end;;
          assign itemPtr newItem;;
          pushBoolean true;;
          ret 1%nat
    end
  end.

(** ** Monster bindings (monster_functions.cpp) *)

Definition luaMonsterIsMonster : M nat :=
  monster ← getUserdataShared 1;
  pushBoolean (bool_decide (monster ≠ None));;
  ret 1%nat.

(** On a live monster the source returns 1 without pushing a result. *)
Definition luaMonsterSetForgeStack : M nat :=
  stack_ ← getNumberD uint16_t 2 0;
  monster ← getUserdataShared 1;
  match monster with
  | None =>
      reportErrorFunc (getErrorDesc LUA_ERROR_MONSTER_NOT_FOUND);;
      pushBoolean false;;
      ret 0%nat
  | Some monster =>
      updateMonster monster (Monster_setForgeStack stack_);;
      let icon := if stack_ <? 15 then Influenced else Fiendish in
      updateMonster monster
        (Monster_setIcon "forge"
           (mkCreatureIcon icon (if bool_decide (icon = Influenced) then stack_ `mod` 2 ^ 8 else 0)));;
      onGame (Game_notify (CreatureIconUpdated monster));;
      onGame (Game_notify (CreatureUpdated monster));;
      ret 1%nat
  end.

Definition luaMonsterGetName : M nat :=
  monster ← getUserdataShared 1;
  match monster with
  | None =>
      reportErrorFunc (getErrorDesc LUA_ERROR_MONSTER_NOT_FOUND);;
      pushBoolean false;;
      ret 0%nat
  | Some monster =>
      m ← readMonster monster;
      pushString (monster_name m);;
      ret 1%nat
  end.

Definition luaMonsterHazard : M nat :=
  monster ← getUserdataShared 1;
  hazard_ ← getBooleanD 2 false;
  match monster with
  | Some monster =>
      top ← lua_gettop;
      (if decide (top = 1%nat) then m ← readMonster monster; pushBoolean (hazard m)
       else
         updateMonster monster (Monster_setHazard hazard_);;
         m ← readMonster monster;
         pushBoolean (hazard m));;
      ret 1%nat
  | None => lua_pushnil;; ret 1%nat
  end.

Definition luaMonsterHazardCrit : M nat :=
  monster ← getUserdataShared 1;
  hazardCrit_ ← getBooleanD 2 false;
  match monster with
  | Some monster =>
      top ← lua_gettop;
      (if decide (top = 1%nat) then m ← readMonster monster; pushBoolean (hazardCrit m)
       else
         updateMonster monster (Monster_setHazardSystemCrit hazardCrit_);;
         m ← readMonster monster;
         pushBoolean (hazardCrit m));;
      ret 1%nat
  | None => lua_pushnil;; ret 1%nat
  end.

Definition luaMonsterHazardDodge : M nat :=
  monster ← getUserdataShared 1;
  hazardDodge_ ← getBooleanD 2 false;
  match monster with
  | Some monster =>
      top ← lua_gettop;
      (if decide (top = 1%nat) then m ← readMonster monster; pushBoolean (hazardDodge m)
       else
         updateMonster monster (Monster_setHazardSystemDodge hazardDodge_);;
         m ← readMonster monster;
         pushBoolean (hazardDodge m));;
      ret 1%nat
  | None => lua_pushnil;; ret 1%nat
  end.

Definition luaMonsterHazardDamageBoost : M nat :=
  monster ← getUserdataShared 1;
  hazardDamageBoost_ ← getBooleanD 2 false;
  match monster with
  | Some monster =>
      top ← lua_gettop;
      (if decide (top = 1%nat) then m ← readMonster monster; pushBoolean (hazardDamageBoost m)
       else
         updateMonster monster (Monster_setHazardSystemDamageBoost hazardDamageBoost_);;
         m ← readMonster monster;
         pushBoolean (hazardDamageBoost m));;
      ret 1%nat
  | None => lua_pushnil;; ret 1%nat
  end.

Definition luaMonsterHazardDefenseBoost : M nat :=
  monster ← getUserdataShared 1;
  hazardDefenseBoost_ ← getBooleanD 2 false;
  match monster with
  | Some monster =>
      top ← lua_gettop;
      (if decide (top = 1%nat) then m ← readMonster monster; pushBoolean (hazardDefenseBoost m)
       else
         updateMonster monster (Monster_setHazardSystemDefenseBoost hazardDefenseBoost_);;
         m ← readMonster monster;
         pushBoolean (hazardDefenseBoost m));;
      ret 1%nat
  | None => lua_pushnil;; ret 1%nat
  end.

(** ** Vocation bindings (vocation_functions.cpp) *)

Definition luaVocationGetId : M nat :=
  vocation ← getUserdataShared 1;
  match vocation with
  | Some vocation =>
      v ← gets (λ st, vocations (game st) vocation);
      lua_pushnumber (Finite (inject_Z (vocation_id v)));;
      ret 1%nat
  | None => lua_pushnil;; ret 1%nat
  end.

(** ** Entering a script (creaturecallback.cpp) *)

(** Modelled from the spec: [enter] of spec 4.1 ([reserveScriptEnv], a member
    of the script interface, which is not among the sources): it fails when
    the nesting depth has reached the configured maximum, and otherwise
    pushes a new environment onto the depth-tracked stack. *)
Definition reserveScriptEnv : M bool :=
  λ st,
    if decide (length (envs st) < scriptEnvMax)%nat
    then (true, set_envs (emptyScriptEnvironment :: envs st) st)
    else (false, st).

(** [scriptInterface->pushFunction(scriptId)]: the function to call is put on
    the Lua stack. *)
Definition pushFunction (scriptId : Z) : M unit := push (LFunction scriptId).

Definition g_logger_error (fmt : string) (args : list string) : M unit :=
  modify (λ st, set_logger (logger st ++ [mkLogLine fmt args]) st).

(** Modelled from the spec: a creature is a variant over Npc, Monster and
    Player (spec 3); [getNpc], [readMonster] and [getPlayer] are non-null on
    their own variant only. *)
Inductive CreatureVariant := VariantNpc | VariantMonster | VariantPlayer.

Record Creature := mkCreature {
  creature_name : string;
  variant : CreatureVariant;
}.

Definition getNpc (c : Creature) : bool :=
  match variant c with VariantNpc => true | _ => false end.

Definition getMonster (c : Creature) : bool :=
  match variant c with VariantMonster => true | _ => false end.

Definition getPlayer (c : Creature) : bool :=
  match variant c with VariantPlayer => true | _ => false end.

Definition getCreatureClass (creature : option Creature) : string :=
  match creature with
  | None => ""
  | Some creature =>
      if getNpc creature then "Npc"
      else if getMonster creature then "Monster"
      else if getPlayer creature then "Player"
      else ""
  end.

(** The callback object: what [m_targetCreature.lock()] yields, whether the
    Lua state has been attached, and the number of parameters pushed. *)
Record CreatureCallback := mkCreatureCallback {
  m_targetCreature : option Creature;
  L_attached : bool;
  params : nat;
}.

(** [CreatureCallback::startScriptInterface].  The result is [None] where the
    function dereferences a null pointer ([targetCreature->getName()] on an
    expired target). *)
Definition startScriptInterface (scriptId : Z) (cb : CreatureCallback) (st : State)
  : option (bool * CreatureCallback * State) :=
  if decide (scriptId = -1) then Some (false, cb, st)
  else
    let '(reserved, st) := reserveScriptEnv st in
    if negb reserved then
      let targetCreature := m_targetCreature cb in
      match targetCreature with
      | None => None
      | Some creature =>
          let '(_, st) :=
            g_logger_error
              "[CreatureCallback::startScriptInterface] - {} {} Call stack overflow. Too many lua script calls being nested."
              [getCreatureClass targetCreature; creature_name creature] st in
          Some (false, cb, st)
      end
    else
      let '(_, st) := onScriptEnv (ScriptEnvironment_setScriptId scriptId) st in
      let cb := mkCreatureCallback (m_targetCreature cb) true (params cb) in
      let '(_, st) := pushFunction scriptId st in
      Some (true, cb, st).

(** ** The branch of a missing handle

    What each exposed binding does once the handle it is given resolves to
    no live object ([getUserdataShared] yields null; for the three
    constructors, the lookup of the id yields null): the statements of that
    branch, in the order of the source, and the count it returns. *)
Definition missingHandle (b : Binding) : M nat :=
  match b with
  (* pushBoolean(L, handle != nullptr); return 1; *)
  | ItemIsItem | MonsterIsMonster =>
      pushBoolean false;; ret 1%nat
  (* reportErrorFunc(getErrorDesc(LUA_ERROR_ITEM_NOT_FOUND)); pushBoolean(L, false); return 1; *)
  | ItemGetImbuement | ItemGetImbuementSlot | ItemSetDuration | ItemIsInsideDepot
  | ItemIsContainer | ItemGetTier | ItemSetTier | ItemGetClassification
  | ItemCanReceiveAutoCarpet =>
      reportErrorFunc (getErrorDesc LUA_ERROR_ITEM_NOT_FOUND);;
      pushBoolean false;;
      ret 1%nat
  (* reportErrorFunc(getErrorDesc(LUA_ERROR_ITEM_NOT_FOUND)); return 0; *)
  | ItemSetOwner | ItemGetOwnerId | ItemIsOwner | ItemGetOwnerName =>
      reportErrorFunc (getErrorDesc LUA_ERROR_ITEM_NOT_FOUND);;
      ret 0%nat
  (* reportErrorFunc(getErrorDesc(LUA_ERROR_ITEM_NOT_FOUND)); return 1; *)
  | ItemHasOwner =>
      reportErrorFunc (getErrorDesc LUA_ERROR_ITEM_NOT_FOUND);;
      ret 1%nat
  (* reportErrorFunc(getErrorDesc(LUA_ERROR_MONSTER_NOT_FOUND)); pushBoolean(L, false); return 0; *)
  | MonsterGetTimeToChangeFiendish | MonsterSetTimeToChangeFiendish
  | MonsterGetMonsterForgeClassification | MonsterSetMonsterForgeClassification
  | MonsterGetForgeStack | MonsterSetForgeStack | MonsterConfigureForgeSystem
  | MonsterClearFiendishStatus | MonsterIsForgeable | MonsterGetName | MonsterSetName
  | MonsterAddReflectElement | MonsterAddDefense | MonsterGetDefense | MonsterIsDead
  | MonsterImmune =>
      reportErrorFunc (getErrorDesc LUA_ERROR_MONSTER_NOT_FOUND);;
      pushBoolean false;;
      ret 0%nat
  (* lua_pushnil(L); return 1; *)
  | ItemCreate | ItemGetContainer | ItemGetParent | ItemGetTopParent | ItemGetId
  | ItemClone | ItemSplit | ItemRemove | ItemGetUniqueId | ItemGetActionId
  | ItemSetActionId | ItemGetCount | ItemGetCharges | ItemGetFluidType | ItemGetWeight
  | ItemGetSubType | ItemGetName | ItemGetPluralName | ItemGetArticle
  | ItemGetPosition | ItemGetTile | ItemHasAttribute | ItemGetAttribute
  | ItemSetAttribute | ItemRemoveAttribute | ItemGetCustomAttribute
  | ItemSetCustomAttribute | ItemRemoveCustomAttribute | ItemCanBeMoved
  | ItemSerializeAttributes | ItemMoveTo | ItemTransform | ItemDecay | ItemMoveToSlot
  | ItemGetDescription | ItemHasProperty | MonsterCreate | MonsterGetType
  | MonsterSetType | MonsterGetSpawnPosition | MonsterIsInSpawnRange | MonsterIsIdle
  | MonsterSetIdle | MonsterIsTarget | MonsterIsOpponent | MonsterIsFriend
  | MonsterAddFriend | MonsterRemoveFriend | MonsterGetFriendList
  | MonsterGetFriendCount | MonsterAddTarget | MonsterRemoveTarget
  | MonsterGetTargetList | MonsterGetTargetCount | MonsterChangeTargetDistance
  | MonsterIsChallenged | MonsterSelectTarget | MonsterSearchTarget
  | MonsterSetSpawnPosition | MonsterGetRespawnType | MonsterHazard
  | MonsterHazardCrit | MonsterHazardDodge | MonsterHazardDamageBoost
  | MonsterHazardDefenseBoost | VocationCreate | VocationGetId | VocationGetClientId
  | VocationGetBaseId | VocationGetName | VocationGetDescription
  | VocationGetRequiredSkillTries | VocationGetRequiredManaSpent
  | VocationGetCapacityGain | VocationGetHealthGain | VocationGetHealthGainTicks
  | VocationGetHealthGainAmount | VocationGetManaGain | VocationGetManaGainTicks
  | VocationGetManaGainAmount | VocationGetMaxSoul | VocationGetSoulGainTicks
  | VocationGetBaseAttackSpeed | VocationGetAttackSpeed | VocationGetBaseSpeed
  | VocationGetDemotion | VocationGetPromotion =>
      lua_pushnil;; ret 1%nat
  end.

End Bindings.

(** ** A concrete world

    One instance of the collaborators and one state, on which the bindings
    can be run. *)

Definition sample_toItemAttribute (n : lua_Number) : ItemAttribute_t :=
  match n with
  | Finite q =>
      match Qfloor q with
      | 2 => ACTIONID
      | 3 => UNIQUEID
      | 19 => DURATION
      | 20 => DECAYSTATE
      | 23 => FLUIDTYPE
      | 29 => DURATION_TIMESTAMP
      | 4 => OTHER_STRING 4
      | _ => NONE
      end
  | _ => NONE
  end.

Definition sample_stringToItemAttribute (s : string) : ItemAttribute_t :=
  if decide (s = "aid") then ACTIONID
  else if decide (s = "uid") then UNIQUEID
  else if decide (s = "duration") then DURATION
  else if decide (s = "decaystate") then DECAYSTATE
  else if decide (s = "description") then OTHER_STRING 4
  else NONE.

Definition sample_toItemDecayState (n : lua_Number) : ItemDecayState_t :=
  match n with
  | Finite q =>
      match Qfloor q with
      | 0 => DECAYING_FALSE
      | 1 => DECAYING_TRUE
      | 2 => DECAYING_PENDING
      | 3 => DECAYING_STOPPING
      | _ => DECAYING_STOPPED
      end
  | _ => DECAYING_FALSE
  end.

Definition sample_pushToLua (c : CustomAttribute) : lua_value :=
  match c with
  | CustomInt64 n => LNumber (Finite (inject_Z n))
  | CustomDouble d => LNumber d
  | CustomString s => LString s
  | CustomBool b => LBoolean b
  end.

Definition sample_getErrorDesc (code : ErrorCode_t) : string :=
  match code with
  | LUA_ERROR_ITEM_NOT_FOUND => "Item not found"
  | LUA_ERROR_MONSTER_NOT_FOUND => "Monster not found"
  | LUA_ERROR_PLAYER_NOT_FOUND => "Player not found"
  end.

(** Item 3031 is the one stackable template of the sample. *)
Definition sample_Items_at (itemId : Z) : ItemType :=
  mkItemType (itemId =? 3031) 100.

Definition sample_isRemoved (g : Game) (item : nat) : bool :=
  match parent (items g item) with NoParent => true | _ => false end.

(** The clone of item [r] is stored at [r + 100]. *)
Definition sample_clone (item : nat) (g : Game) : option nat * Game :=
  (Some (item + 100)%nat, Game_updateItem (item + 100) (λ _, items g item) g).

(** A count of zero removes the item; the same template is updated in
    place; another template replaces the item by a new one at [r + 1]. *)
Definition sample_transformItem (item : nat) (newId newCount : Z) (g : Game) : option nat * Game :=
  if newCount =? 0 then (None, Game_updateItem item (Item_setParent NoParent) g)
  else if newId =? item_id (items g item)
  then (Some item, Game_updateItem item (Item_setItemCount newCount) g)
  else
    let old := items g item in
    (Some (item + 1)%nat,
     Game_updateItem item (Item_setParent NoParent)
       (Game_updateItem (item + 1)
          (λ _, mkItem newId newCount (attributes old) (customAttributeMap old)
                  (decaying old) (parent old)) g)).

(** A conversion C++ leaves open: to a 64-bit integer the sample answers the
    smallest one, as the conversion instruction of x86-64 does, and 0 to the
    narrower types. *)
Definition sample_cast_unspecified (T : ctype) (x : lua_Number) : Z :=
  match T with
  | int64_t => - 2 ^ 63
  | _ => 0
  end.

Definition sampleCollaborators : Collaborators := {|
  lua_str2number := λ _, Finite 0;
  lua_number2str := λ _, "";
  cast_unspecified := sample_cast_unspecified;
  toItemAttribute := sample_toItemAttribute;
  stringToItemAttribute := sample_stringToItemAttribute;
  toItemDecayState := sample_toItemDecayState;
  CustomAttribute_pushToLua := sample_pushToLua;
  itemMetatable := λ _ _, "Item";
  getErrorDesc := sample_getErrorDesc;
  scriptEnvMax := 16;
  Items_getItemIdByName := λ _, 0;
  Items_at := sample_Items_at;
  Item_isStackable := λ it, stackable (sample_Items_at (item_id it));
  Item_getSubType := item_count;
  Item_isRemoved := sample_isRemoved;
  Item_clone := sample_clone;
  Game_transformItem := sample_transformItem;
  Decay_startDecay := λ item, Game_updateItem item (Item_setDecaying DECAYING_TRUE);
  Decay_stopDecay := λ item, Game_updateItem item (Item_setDecaying DECAYING_STOPPED);
|}.

(** A stack of fifty coins held by container 0. *)
Definition sampleItem : Item :=
  mkItem 3031 50 ∅ ∅ DECAYING_FALSE (Holder 0).

Definition sampleMonster : Monster :=
  mkMonster "Darklight Matter" 0 ∅ false false false false false.

Definition sampleGame : Game :=
  mkGame (λ _, sampleItem) (λ _, sampleMonster) (λ _, mkVocation 4) [].

(** Userdata 0 holds item 1, userdata 1 holds a null pointer and userdata 2
    holds monster 7; item 1 has handle 70000 in the running environment. *)
Definition sampleState : State :=
  mkState []
    [mkUserdata (Some 1%nat) (Some "Item"); mkUserdata None (Some "Item");
     mkUserdata (Some 7%nat) (Some "Monster")]
    sampleGame
    [mkScriptEnvironment 12 {[ 70000 := 1%nat ]} 70000 []]
    [] [].

Definition num (z : Z) : lua_value := LNumber (Finite (inject_Z z)).

(** The state of the sample at the maximum nesting depth. *)
Definition sampleState_full : State :=
  set_envs (replicate 16 emptyScriptEnvironment) sampleState.

Definition sampleCallback : CreatureCallback :=
  mkCreatureCallback (Some (mkCreature "Darklight Matter" VariantMonster)) false 0.

(** The arguments of an optional trailing integer parameter. *)
Definition optional_arg (o : option Z) : list lua_value :=
  match o with
  | Some z => [num z]
  | None => []
  end.

(** ** The fate of a captured handle *)




(** ** The attribute and the key an argument names *)

(** The attribute a key argument names ([attributeArg] on that value). *)
Definition attribute_of_key `{Collaborators} (key : lua_value) : ItemAttribute_t :=
  match key with
  | LNumber n => toItemAttribute n
  | LString s => stringToItemAttribute s
  | _ => NONE
  end.

(** The error a rejected write or removal of a protected key reports. *)
Definition protected_key_error (verb name : string) : string :=
  "Attempt to " +:+ verb +:+ " protected key " +:+ quote +:+ name +:+ quote.

(** A rejected operation: the script receives [false], one error has been
    reported, and nothing else of the state has changed. *)
Definition rejected (st : State) (r : list lua_value * State) : Prop :=
  r.1 = [LBoolean false] ∧ ∃ msg, r.2 = set_errors (errors st ++ [msg]) st.

(** The four hazard modifiers of a monster, each with its binding, its flag
    and its setter. *)
Inductive HazardModifier := HazardCrit | HazardDodge | HazardDamageBoost | HazardDefenseBoost.

Definition hazard_binding `{Collaborators} (md : HazardModifier) : M nat :=
  match md with
  | HazardCrit => luaMonsterHazardCrit
  | HazardDodge => luaMonsterHazardDodge
  | HazardDamageBoost => luaMonsterHazardDamageBoost
  | HazardDefenseBoost => luaMonsterHazardDefenseBoost
  end.

Definition hazard_flag (md : HazardModifier) (m : Monster) : bool :=
  match md with
  | HazardCrit => hazardCrit m
  | HazardDodge => hazardDodge m
  | HazardDamageBoost => hazardDamageBoost m
  | HazardDefenseBoost => hazardDefenseBoost m
  end.

Definition hazard_setter (md : HazardModifier) : bool → Monster → Monster :=
  match md with
  | HazardCrit => Monster_setHazardSystemCrit
  | HazardDodge => Monster_setHazardSystemDodge
  | HazardDamageBoost => Monster_setHazardSystemDamageBoost
  | HazardDefenseBoost => Monster_setHazardSystemDefenseBoost
  end.


(** The custom-attribute key a key argument names: a number is converted to
    a 64-bit integer and rendered in decimal, a string is taken as it is. *)
Definition custom_key `{Collaborators} (key : lua_value) : option string :=
  match key with
  | LNumber n => Some (to_string (static_cast int64_t n))
  | LString s => Some s
  | _ => None
  end.

(** A number has a non-zero fractional part when it is finite and what
    remains of it above its floor is not zero. *)
Definition has_fractional_part (v : lua_Number) : Prop :=
  match v with
  | Finite q => ¬ (q - inject_Z (Qfloor q) == 0)%Q
  | _ => False
  end.

(** Modelled from the spec: [leave] of spec 4.1 ([resetScriptEnv], a member
    of the script interface, which is not among the sources): it pops the
    innermost environment and the enclosing one is active again. *)
Definition resetScriptEnv : M unit :=
  modify (λ st, set_envs (tl (envs st)) st).

(** The class name of a creature's variant. *)
Definition variant_name (c : Creature) : string :=
  match variant c with
  | VariantNpc => "Npc"
  | VariantMonster => "Monster"
  | VariantPlayer => "Player"
  end.

(** The handle argument of a binding resolves to no live object. *)
Definition null_handle `{Collaborators} (args : list lua_value) (st : State) : Prop :=
  (getUserdataShared 1 (set_stack args st)).1 = None.

(** The uniform report of a missing handle: the script receives nil, or no
    result at all, or a not-found error has been reported. *)
Definition reports_not_found `{Collaborators}
    (st : State) (r : list lua_value * State) : Prop :=
  r.1 = [LNil] ∨ r.1 = [] ∨
  errors r.2 = errors st ++ [getErrorDesc LUA_ERROR_ITEM_NOT_FOUND] ∨
  errors r.2 = errors st ++ [getErrorDesc LUA_ERROR_MONSTER_NOT_FOUND].

(** Nothing of the game, the environments or the userdata has changed. *)
Definition no_mutation (st st' : State) : Prop :=
  game st' = game st ∧ envs st' = envs st ∧ udata st' = udata st.

(** The bindings embedded in full above, by their entry in the list of the
    exposed bindings. *)
Definition binding_model `{Collaborators} (b : Binding) : option (M nat) :=
  match b with
  | ItemIsItem => Some luaItemIsItem
  | ItemSplit => Some luaItemSplit
  | ItemSetAttribute => Some luaItemSetAttribute
  | ItemRemoveAttribute => Some luaItemRemoveAttribute
  | ItemGetCustomAttribute => Some luaItemGetCustomAttribute
  | ItemSetCustomAttribute => Some luaItemSetCustomAttribute
  | ItemTransform => Some luaItemTransform
  | MonsterIsMonster => Some luaMonsterIsMonster
  | MonsterSetForgeStack => Some luaMonsterSetForgeStack
  | MonsterGetName => Some luaMonsterGetName
  | MonsterHazard => Some luaMonsterHazard
  | MonsterHazardCrit => Some luaMonsterHazardCrit
  | MonsterHazardDodge => Some luaMonsterHazardDodge
  | MonsterHazardDamageBoost => Some luaMonsterHazardDamageBoost
  | MonsterHazardDefenseBoost => Some luaMonsterHazardDefenseBoost
  | VocationGetId => Some luaVocationGetId
  | _ => None
  end.

(** * Further bindings

    More of the three binding files and of the creature callback: the
    readers of the typed attributes, the removal of a custom attribute, the
    clone, the unique id, the owner and the move of an item, the spawn record
    of a monster, the vocation ladder, the item templates the decay bindings
    write, and the parameters of a creature callback. *)

(** ** Reading the attributes of an item *)

Definition ctype_bits (T : ctype) : Z :=
  match T with
  | uint8_t => 8
  | uint16_t => 16
  | uint32_t | int32_t => 32
  | int64_t => 64
  end.

(** The conversion of an integer to the integer type [T]: the value of [T]
    congruent to it modulo two to the width of [T]. *)
Definition integral_cast (T : ctype) (z : Z) : Z :=
  (z - ctype_min T) `mod` 2 ^ ctype_bits T + ctype_min T.

(** Modelled from the spec: [has] of spec 4.3. *)
Definition Item_hasAttribute (a : ItemAttribute_t) (it : Item) : bool :=
  bool_decide (is_Some (attributes it !! a)).

(** Modelled from the spec: [get] of spec 4.3 on an integer-valued key, read
    at the integer type [T]; an attribute the item does not have reads as
    zero (luaItemGetUniqueId takes a zero for an item without unique id). *)
Definition Item_getAttribute (T : ctype) (a : ItemAttribute_t) (it : Item) : Z :=
  match attributes it !! a with
  | Some (IntegerValue z) => integral_cast T z
  | _ => 0
  end.

(** Modelled from the spec: [get] of spec 4.3 on a string-valued key; an
    attribute the item does not have reads as the empty string. *)
Definition Item_getAttribute_string (a : ItemAttribute_t) (it : Item) : string :=
  match attributes it !! a with
  | Some (StringValue s) => s
  | _ => ""
  end.

(** Modelled from the spec: [removeCustom] of spec 4.3, the map without the
    key. *)
Definition Item_eraseCustomAttribute (key : string) (it : Item) : Item :=
  mkItem (item_id it) (item_count it) (attributes it)
         (delete key (customAttributeMap it)) (decaying it) (parent it).

(** ** Further collaborators

    What the further bindings call and the sources do not define. *)

(** Modelled from the spec: a position of the map (spec 3, SpawnRecord). *)
Record Position := mkPosition {
  pos_x : Z;
  pos_y : Z;
  pos_z : Z;
}.

(** Modelled from the spec: the configured duration and the decay-to
    successor of an item template (spec 4.4), with the flag of the duration
    display that luaItemSetDuration writes beside them; the ItemType class is
    not among the sources. *)
Record DecayTemplate := mkDecayTemplate {
  decayTo : Z;
  decayTime : Z;
  showDuration : bool;
}.

Global Instance Cylinder_eq_dec : EqDecision Cylinder.
Proof. solve_decision. Defined.

(** Modelled from the spec: the type of a handle, which an operation may be
    given wrongly (spec 7); the enumerators luaItemMoveTo switches on are
    listed, the remaining ones are kept as one. *)
Inductive LuaData_t :=
  | LuaData_Container
  | LuaData_Player
  | LuaData_Tile
  | LuaData_Other.

Class Services := {
  Item_getDuration : Item → Z;
  (* scripting runtime: the type of the userdata and the position read at an
     index of the stack *)
  getUserdataType : State → nat → LuaData_t;
  getPosition : State → nat → Position;
  (* the map and the movement of items *)
  Map_getTile : Game → Position → option nat;
  RETURNVALUE_NOERROR : Z;
  INDEX_WHEREEVER : Z;
  FLAG_NOLIMIT : Z;
  FLAG_IGNOREBLOCKITEM : Z;
  FLAG_IGNOREBLOCKCREATURE : Z;
  FLAG_IGNORENOTMOVABLE : Z;
  Game_internalAddItem : nat → nat → Z → Z → Game → Z * Game;
  Game_internalMoveItem :
    Cylinder → nat → Z → nat → Z → Z → Game → (Z * option nat) * Game;
  (* the events scheduler and the configuration *)
  getSpawnMonsterSchedule : Z;
  RATE_SPAWN : Z;
  (* monsters and their spawn records *)
  Monster_getPosition : Game → nat → Position;
  Monster_typeName : Game → nat → string;
  Monster_setMasterPos : nat → Position → Game → Game;
  spawnMonsterList_emplace_back : Position → Z → Game → nat * Game;
  DIRECTION_NORTH : Z;
  SpawnMonster_addMonster : nat → string → Position → Z → Z → Game → Game;
  SpawnMonster_startSpawnMonsterCheck : nat → Game → Game;
  (* vocations *)
  VOCATION_NONE : Z;
  Vocation_getFromVocation : Vocation → Z;
  Vocations_getPromotedVocation : Game → Z → Z;
  Vocations_getVocation : Game → Z → option nat;
  (* owners of items; the two overloads of setOwner and isOwner take a
     creature or a creature id *)
  Item_setOwner : nat → nat → Game → Game;
  Item_setOwner_id : nat → Z → Game → Game;
  Item_isOwner : Game → nat → nat → bool;
  Item_isOwner_id : Game → nat → Z → bool;
  Item_getOwnerId : Game → nat → Z;
  (* decay *)
  uniform_random : Z → Z → Z;
  Item_startDecaying : (Z → DecayTemplate) → nat → Game → Game;
}.

Section MoreBindings.
Context {C : Collaborators} {V : Services}.

(** ** Item bindings, continued (item_functions.cpp) *)

Definition luaItemClone : M nat :=
  item ← getUserdataShared 1;
  match item with
  | None => lua_pushnil;; ret 1%nat
  | Some item =>
    clone ← withGame (Item_clone item);
    match clone with
    | None => lua_pushnil;; ret 1%nat
    | Some clone =>
      onScriptEnv (ScriptEnvironment_addTempItem clone);;
      updateItem clone (Item_setParent VirtualCylinder);;
      pushUserdata clone;;
      setItemMetatable clone;;
      ret 1%nat
    end
  end.

Definition luaItemGetUniqueId : M nat :=
  item ← getUserdataShared 1;
  match item with
  | Some item =>
      it ← readItem item;
      let uniqueId := Item_getAttribute uint16_t UNIQUEID it in
      uniqueId ← (if uniqueId =? 0 then env_addThing item else ret uniqueId);
      lua_pushnumber (Finite (inject_Z uniqueId));;
      ret 1%nat
  | None => lua_pushnil;; ret 1%nat
  end.

Definition luaItemGetActionId : M nat :=
  item ← getUserdataShared 1;
  match item with
  | Some item =>
      it ← readItem item;
      let actionId := Item_getAttribute uint16_t ACTIONID it in
      lua_pushnumber (Finite (inject_Z actionId));;
      ret 1%nat
  | None => lua_pushnil;; ret 1%nat
  end.

(** The action id is read before the handle is looked at. *)
Definition luaItemSetActionId : M nat :=
  actionId ← getNumber uint16_t 2;
  item ← getUserdataShared 1;
  match item with
  | Some item =>
      updateItem item (Item_setAttribute ACTIONID (IntegerValue actionId));;
      pushBoolean true;;
      ret 1%nat
  | None => lua_pushnil;; ret 1%nat
  end.

Definition luaItemHasAttribute : M nat :=
  item ← getUserdataShared 1;
  match item with
  | None => lua_pushnil;; ret 1%nat
  | Some item =>
    attribute ← attributeArg 2;
    it ← readItem item;
    pushBoolean (Item_hasAttribute attribute it);;
    ret 1%nat
  end.

Definition luaItemGetAttribute : M nat :=
  item ← getUserdataShared 1;
  match item with
  | None => lua_pushnil;; ret 1%nat
  | Some item =>
    attribute ← attributeArg 2;
    it ← readItem item;
    if isAttributeInteger attribute then
      if bool_decide (attribute = DURATION) then
        lua_pushnumber (Finite (inject_Z (Item_getDuration it)));;
        ret 1%nat
      else
        lua_pushnumber (Finite (inject_Z (Item_getAttribute int64_t attribute it)));;
        ret 1%nat
    else if isAttributeString attribute then
      pushString (Item_getAttribute_string attribute it);;
      ret 1%nat
    else
      lua_pushnil;; ret 1%nat
  end.

(** Modelled from the spec: [removeCustom] of spec 4.3
    ([Item::removeCustomAttribute]): the key is erased and the answer is
    whether it was there. *)
Definition removeCustomAttribute (item : nat) (key : string) : M bool :=
  it ← readItem item;
  updateItem item (Item_eraseCustomAttribute key);;
  ret (bool_decide (is_Some (customAttributeMap it !! key))).

Definition luaItemRemoveCustomAttribute : M nat :=
  item ← getUserdataShared 1;
  match item with
  | None => lua_pushnil;; ret 1%nat
  | Some item =>
    byNumber ← isNumber 2;
    if byNumber then
      n ← getNumber int64_t 2;
      removed ← removeCustomAttribute item (to_string n);
      pushBoolean removed;;
      ret 1%nat
    else
      byString ← isString 2;
      if byString then
        key ← getString 2;
        removed ← removeCustomAttribute item key;
        pushBoolean removed;;
        ret 1%nat
      else
        lua_pushnil;; ret 1%nat
  end.

(** [isUserdata(L, arg)]. *)
Definition isUserdata (arg : nat) : M bool :=
  v ← lua_value_at arg;
  ret (match v with LUserdata _ => true | _ => false end).

Definition luaItemSetOwner : M nat :=
  item ← getUserdataShared 1;
  match item with
  | None => reportErrorFunc (getErrorDesc LUA_ERROR_ITEM_NOT_FOUND);; ret 0%nat
  | Some item =>
    byUserdata ← isUserdata 2;
    if byUserdata then
      creature ← getUserdataShared 2;
      match creature with
      | None => reportErrorFunc (getErrorDesc LUA_ERROR_PLAYER_NOT_FOUND);; ret 0%nat
      | Some creature =>
          onGame (Item_setOwner item creature);;
          pushBoolean true;;
          ret 1%nat
      end
    else
      creatureId ← getNumber uint32_t 2;
      if negb (creatureId =? 0) then
        onGame (Item_setOwner_id item creatureId);;
        pushBoolean true;;
        ret 1%nat
      else
        pushBoolean false;; ret 1%nat
  end.

Definition luaItemGetOwnerId : M nat :=
  item ← getUserdataShared 1;
  match item with
  | None => reportErrorFunc (getErrorDesc LUA_ERROR_ITEM_NOT_FOUND);; ret 0%nat
  | Some item =>
    ownerId ← gets (λ st, Item_getOwnerId (game st) item);
    if negb (ownerId =? 0) then
      lua_pushnumber (Finite (inject_Z ownerId));;
      ret 1%nat
    else
      lua_pushnil;; ret 1%nat
  end.

Definition luaItemIsOwner : M nat :=
  item ← getUserdataShared 1;
  match item with
  | None => reportErrorFunc (getErrorDesc LUA_ERROR_ITEM_NOT_FOUND);; ret 0%nat
  | Some item =>
    byUserdata ← isUserdata 2;
    if byUserdata then
      creature ← getUserdataShared 2;
      match creature with
      | None => reportErrorFunc (getErrorDesc LUA_ERROR_PLAYER_NOT_FOUND);; ret 0%nat
      | Some creature =>
          owner ← gets (λ st, Item_isOwner (game st) item creature);
          pushBoolean owner;;
          ret 1%nat
      end
    else
      creatureId ← getNumber uint32_t 2;
      if negb (creatureId =? 0) then
        owner ← gets (λ st, Item_isOwner_id (game st) item creatureId);
        pushBoolean owner;;
        ret 1%nat
      else
        pushBoolean false;; ret 1%nat
  end.

(** The cylinder the second argument of luaItemMoveTo designates: the
    container, player or tile a userdata holds, or the tile at a position. *)
Definition moveTo_toCylinder : M (option nat) :=
  byUserdata ← isUserdata 2;
  if byUserdata then
    type ← gets (λ st, getUserdataType st 2);
    match type with
    | LuaData_Container => getUserdataShared 2
    | LuaData_Player => getUserdataShared 2
    | LuaData_Tile => getUserdataShared 2
    | LuaData_Other => ret None
    end
  else
    pos ← gets (λ st, getPosition st 2);
    gets (λ st, Map_getTile (game st) pos).

Definition luaItemMoveTo : M nat :=
  itemPtr ← getRawUserDataShared 1;
  match itemPtr with
  | None => lua_pushnil;; ret 1%nat
  | Some itemPtr =>
    item ← deref itemPtr;
    match item with
    | None => lua_pushnil;; ret 1%nat
    | Some item =>
      removed ← isRemoved item;
      if removed then lua_pushnil;; ret 1%nat
      else
        toCylinder ← moveTo_toCylinder;
        match toCylinder with
        | None => lua_pushnil;; ret 1%nat
        | Some toCylinder =>
          it ← readItem item;
          if bool_decide (parent it = Holder toCylinder) then pushBoolean true;; ret 1%nat
          else
            flags ← getNumberD uint32_t 3
                      (Z.lor (Z.lor (Z.lor FLAG_NOLIMIT FLAG_IGNOREBLOCKITEM)
                                FLAG_IGNOREBLOCKCREATURE) FLAG_IGNORENOTMOVABLE);
            it ← readItem item;
            if bool_decide (parent it = VirtualCylinder) then
              result ← withGame (Game_internalAddItem toCylinder item INDEX_WHEREEVER flags);
              pushBoolean (result =? RETURNVALUE_NOERROR);;
              ret 1%nat
            else
              moved ← withGame (Game_internalMoveItem (parent it) toCylinder INDEX_WHEREEVER
                                  item (item_count it) flags);
              match moved.2 with
              | Some moveItem => assign itemPtr (Some moveItem)
              | None => ret ()
              end;;
              pushBoolean (moved.1 =? RETURNVALUE_NOERROR);;
              ret 1%nat
        end
    end
  end.

(** ** Monster bindings, continued (monster_functions.cpp) *)

(** [pos] is a reference to the position of the monster: it is read where it
    is used.  The spawn rate and the interval are 32-bit unsigned. *)
Definition luaMonsterSetSpawnPosition : M nat :=
  monster ← getUserdataShared 1;
  match monster with
  | None => lua_pushnil;; ret 1%nat
  | Some monster =>
    let eventschedule := integral_cast uint32_t getSpawnMonsterSchedule in
    pos ← gets (λ st, Monster_getPosition (game st) monster);
    onGame (Monster_setMasterPos monster pos);;
    pos ← gets (λ st, Monster_getPosition (game st) monster);
    spawnMonster ← withGame (spawnMonsterList_emplace_back pos 5);
    seconds ← getNumberD uint32_t 2 90;
    let interval :=
      integral_cast uint32_t (integral_cast uint32_t (seconds * 1000) * 100)
      `div` Z.max 1 (integral_cast uint32_t (RATE_SPAWN * eventschedule)) in
    typeName ← gets (λ st, Monster_typeName (game st) monster);
    pos ← gets (λ st, Monster_getPosition (game st) monster);
    onGame (SpawnMonster_addMonster spawnMonster typeName pos DIRECTION_NORTH interval);;
    onGame (SpawnMonster_startSpawnMonsterCheck spawnMonster);;
    pushBoolean true;;
    ret 1%nat
  end.

(** ** Vocation bindings, continued (vocation_functions.cpp) *)

Definition luaVocationGetDemotion : M nat :=
  vocation ← getUserdataShared 1;
  match vocation with
  | None => lua_pushnil;; ret 1%nat
  | Some vocation =>
    v ← gets (λ st, vocations (game st) vocation);
    let fromId := integral_cast uint16_t (Vocation_getFromVocation v) in
    if fromId =? VOCATION_NONE then lua_pushnil;; ret 1%nat
    else
      demotedVocation ← gets (λ st, Vocations_getVocation (game st) fromId);
      match demotedVocation with
      | Some demoted =>
          if bool_decide (demoted ≠ vocation) then
            pushUserdata demoted;; setMetatable "Vocation";; ret 1%nat
          else lua_pushnil;; ret 1%nat
      | None => lua_pushnil;; ret 1%nat
      end
  end.

Definition luaVocationGetPromotion : M nat :=
  vocation ← getUserdataShared 1;
  match vocation with
  | None => lua_pushnil;; ret 1%nat
  | Some vocation =>
    v ← gets (λ st, vocations (game st) vocation);
    promotedId ← gets (λ st,
      integral_cast uint16_t (Vocations_getPromotedVocation (game st) (vocation_id v)));
    if promotedId =? VOCATION_NONE then lua_pushnil;; ret 1%nat
    else
      promotedVocation ← gets (λ st, Vocations_getVocation (game st) promotedId);
      match promotedVocation with
      | Some promoted =>
          if bool_decide (promoted ≠ vocation) then
            pushUserdata promoted;; setMetatable "Vocation";; ret 1%nat
          else lua_pushnil;; ret 1%nat
      | None => lua_pushnil;; ret 1%nat
      end
  end.

(** ** The parameters of a creature callback (creaturecallback.cpp) *)

(** [CreatureCallback::pushSpecificCreature], for the creature object at
    [creature] whose variant and name are [c]. *)
Definition pushSpecificCreature (creature : nat) (c : Creature) (cb : CreatureCallback)
  : M CreatureCallback :=
  pushed ← (if getNpc c then pushUserdata creature;; ret true
            else if getMonster c then pushUserdata creature;; ret true
            else if getPlayer c then pushUserdata creature;; ret true
            else ret false);
  if pushed : bool then
    setMetatable (getCreatureClass (Some c));;
    ret (mkCreatureCallback (m_targetCreature cb) (L_attached cb) (S (params cb)))
  else ret cb.

End MoreBindings.

(** ** The item templates the decay bindings write (item_functions.cpp)

    [Item::items.getItemType(id)] yields a reference into the table of item
    templates, which every item of that id shares; luaItemDecay and
    luaItemSetDuration write through it.  These two bindings run on the
    state of a binding together with that table. *)

Record World := mkWorld {
  world_state : State;
  itemTypes : Z → DecayTemplate;
}.

Definition W (A : Type) : Type := World → A * World.

Definition retW {A} (a : A) : W A := λ w, (a, w).

Definition bindW {A B} (m : W A) (f : A → W B) : W B :=
  λ w, let '(a, w') := m w in f a w'.

Declare Scope W_scope.
Delimit Scope W_scope with W.
Bind Scope W_scope with W.
Notation "x ← y ; z" := (bindW y (λ x, z))
  (at level 20, y at level 100, z at level 200, only parsing) : W_scope.
Notation "y ;; z" := (bindW y (λ _, z))
  (at level 100, z at level 200, only parsing, right associativity) : W_scope.

(** A computation on the state of a binding, run in the world. *)
Definition liftW {A} (m : M A) : W A :=
  λ w, let '(a, st) := m (world_state w) in (a, mkWorld st (itemTypes w)).

(** [ItemType &it = Item::items.getItemType(id); it.field = ...]. *)
Definition updateItemType (id : Z) (f : DecayTemplate → DecayTemplate) : W unit :=
  λ w, ((), mkWorld (world_state w)
              (λ id', if decide (id' = id) then f (itemTypes w id') else itemTypes w id')).

(** The run of a binding of the world on the arguments a script passes. *)
Definition callW (f : W nat) (args : list lua_value) (w : World) : list lua_value * World :=
  let '(n, w') := f (mkWorld (set_stack args (world_state w)) (itemTypes w)) in
  (drop (length (stack (world_state w')) - n) (stack (world_state w')),
   mkWorld (set_stack (stack (world_state w)) (world_state w')) (itemTypes w')).

Section DecayBindings.
Context {C : Collaborators} {V : Services}.
Local Open Scope W_scope.

(** [item->startDecaying()], which reads the templates as they are then. *)
Definition startDecaying (item : nat) : W unit :=
  λ w, ((), mkWorld (set_game (Item_startDecaying (itemTypes w) item (game (world_state w)))
                       (world_state w))
              (itemTypes w)).

Definition luaItemDecay : W nat :=
  item ← liftW (getUserdataShared 1);
  match item with
  | Some item =>
      byNumber ← liftW (isNumber 2);
      (if byNumber : bool then
         it ← liftW (readItem item);
         decayId ← liftW (getNumber int32_t 2);
         updateItemType (item_id it)
           (λ t, mkDecayTemplate decayId (decayTime t) (showDuration t))
       else retW ());;
      startDecaying item;;
      liftW (pushBoolean true);;
      retW 1%nat
  | None => liftW lua_pushnil;; retW 1%nat
  end.

Definition luaItemSetDuration : W nat :=
  item ← liftW (getUserdataShared 1);
  match item with
  | None =>
      liftW (reportErrorFunc (getErrorDesc LUA_ERROR_ITEM_NOT_FOUND));;
      liftW (pushBoolean false);;
      retW 1%nat
  | Some item =>
    minDuration ← liftW (getNumber uint32_t 2);
    top ← liftW lua_gettop;
    maxDuration ← (if decide (2 < top)%nat then
                     upper ← liftW (getNumber uint32_t 3);
                     retW (integral_cast uint32_t (uniform_random minDuration upper))
                   else retW 0);
    top ← liftW lua_gettop;
    itemid ← (if decide (3 < top)%nat then liftW (getNumber uint16_t 4) else retW 0);
    top ← liftW lua_gettop;
    showDuration_ ← (if decide (4 < top)%nat then liftW (getBoolean 5) else retW true);
    it ← liftW (readItem item);
    updateItemType (item_id it)
      (λ t, mkDecayTemplate (decayTo t)
              (if maxDuration =? 0 then minDuration else maxDuration) (showDuration t));;
    updateItemType (item_id it)
      (λ t, mkDecayTemplate (decayTo t) (decayTime t) showDuration_);;
    updateItemType (item_id it)
      (λ t, mkDecayTemplate itemid (decayTime t) (showDuration t));;
    startDecaying item;;
    liftW (pushBoolean true);;
    retW 1%nat
  end.

End DecayBindings.

(** ** A concrete world, continued *)

(** Vocations 1 to 8; 5 to 8 are the promotions of 1 to 4, and a vocation
    that is no promotion comes from itself.  The owner of an item is kept in
    its integer attribute 1. *)
Definition sampleServices : Services := {|
  Item_getDuration := λ it, Item_getAttribute int32_t DURATION it;
  getUserdataType := λ _ _, LuaData_Container;
  getPosition := λ _ _, mkPosition 100 200 7;
  Map_getTile := λ _ _, Some 9%nat;
  RETURNVALUE_NOERROR := 0;
  INDEX_WHEREEVER := -1;
  FLAG_NOLIMIT := 1;
  FLAG_IGNOREBLOCKITEM := 2;
  FLAG_IGNOREBLOCKCREATURE := 4;
  FLAG_IGNORENOTMOVABLE := 64;
  Game_internalAddItem := λ toCylinder item _ _ g,
    (0, Game_updateItem item (Item_setParent (Holder toCylinder)) g);
  Game_internalMoveItem := λ _ toCylinder _ item _ _ g,
    ((0, Some item), Game_updateItem item (Item_setParent (Holder toCylinder)) g);
  getSpawnMonsterSchedule := 100;
  RATE_SPAWN := 1;
  Monster_getPosition := λ _ _, mkPosition 100 200 7;
  Monster_typeName := λ g m, monster_name (monsters g m);
  Monster_setMasterPos := λ _ _ g, g;
  spawnMonsterList_emplace_back := λ _ _ g, (0%nat, g);
  DIRECTION_NORTH := 0;
  SpawnMonster_addMonster := λ _ _ _ _ _ g, g;
  SpawnMonster_startSpawnMonsterCheck := λ _ g, g;
  VOCATION_NONE := 0;
  Vocation_getFromVocation := λ v, if vocation_id v <=? 4 then vocation_id v else vocation_id v - 4;
  Vocations_getPromotedVocation := λ _ id, if id <=? 4 then id + 4 else 0;
  Vocations_getVocation := λ _ id, if (1 <=? id) && (id <=? 8) then Some (Z.to_nat id) else None;
  Item_setOwner := λ item creature,
    Game_updateItem item
      (Item_setAttribute (OTHER_INTEGER 1) (IntegerValue (Z.of_nat creature)));
  Item_setOwner_id := λ item id,
    Game_updateItem item (Item_setAttribute (OTHER_INTEGER 1) (IntegerValue id));
  Item_isOwner := λ g item creature,
    Item_getAttribute uint32_t (OTHER_INTEGER 1) (items g item) =? Z.of_nat creature;
  Item_isOwner_id := λ g item id,
    Item_getAttribute uint32_t (OTHER_INTEGER 1) (items g item) =? id;
  Item_getOwnerId := λ g item, Item_getAttribute uint32_t (OTHER_INTEGER 1) (items g item);
  uniform_random := λ lo _, lo;
  Item_startDecaying := λ _ item, Game_updateItem item (Item_setDecaying DECAYING_TRUE);
|}.

(** The sample with a fourth userdata, which holds vocation 4. *)
Definition sampleState_vocation : State :=
  set_udata (udata sampleState ++ [mkUserdata (Some 4%nat) (Some "Vocation")]) sampleState.


(** The sample with templates that do not decay. *)
Definition sampleWorld : World :=
  mkWorld sampleState (λ _, mkDecayTemplate 0 0 false).

(** ** The keys and values of the attribute bindings *)

(** The integer-valued keys luaItemSetAttribute stores the value of as it is
    given: every one but the decay state, the duration and the duration
    timestamp. *)
Definition plain_integer_key (a : ItemAttribute_t) : bool :=
  match a with
  | ACTIONID | UNIQUEID | FLUIDTYPE | OTHER_INTEGER _ => true
  | _ => false
  end.

(** The creature id an argument that is no userdata is read as. *)
Definition creature_id `{Collaborators} (v : lua_value) : Z :=
  static_cast uint32_t (lua_tonumber v).

(** The values luaItemSetCustomAttribute stores: numbers, strings and
    booleans. *)
Definition storable (v : lua_value) : bool :=
  match v with
  | LNumber _ | LString _ | LBoolean _ => true
  | _ => false
  end.

(** The custom attribute luaItemSetCustomAttribute stores for a value: a
    number as a Double or an Int64, a string, a boolean; nothing for any
    other value. *)
Definition custom_value `{Collaborators} (v : lua_value) : option CustomAttribute :=
  match v with
  | LNumber x =>
      Some (if number_ltb (std_floor x) x then CustomDouble x
            else CustomInt64 (static_cast int64_t x))
  | LString s => Some (CustomString s)
  | LBoolean b => Some (CustomBool b)
  | _ => None
  end.

(** ** Callbacks with several creatures *)

(** The creatures of a list pushed one after the other, first to last, each
    by [pushSpecificCreature]. *)
Fixpoint pushCreatures `{Collaborators} (creatures : list (nat * Creature))
    (cb : CreatureCallback) : M CreatureCallback :=
  match creatures with
  | [] => ret cb
  | (creature, c) :: creatures =>
      cb ← pushSpecificCreature creature c cb;
      pushCreatures creatures cb
  end.

(** The further bindings embedded in full on the state of a binding, by
    their entry in the list of the exposed bindings. *)
Definition further_binding_model `{Collaborators} `{Services} (b : Binding) : option (M nat) :=
  match b with
  | ItemClone => Some luaItemClone
  | ItemGetUniqueId => Some luaItemGetUniqueId
  | ItemGetActionId => Some luaItemGetActionId
  | ItemSetActionId => Some luaItemSetActionId
  | ItemHasAttribute => Some luaItemHasAttribute
  | ItemGetAttribute => Some luaItemGetAttribute
  | ItemRemoveCustomAttribute => Some luaItemRemoveCustomAttribute
  | ItemSetOwner => Some luaItemSetOwner
  | ItemGetOwnerId => Some luaItemGetOwnerId
  | ItemIsOwner => Some luaItemIsOwner
  | ItemMoveTo => Some luaItemMoveTo
  | MonsterSetSpawnPosition => Some luaMonsterSetSpawnPosition
  | VocationGetDemotion => Some luaVocationGetDemotion
  | VocationGetPromotion => Some luaVocationGetPromotion
  | _ => None
  end.

(** The two bindings embedded on the world. *)
Definition world_binding_model `{Collaborators} `{Services} (b : Binding) : option (W nat) :=
  match b with
  | ItemDecay => Some luaItemDecay
  | ItemSetDuration => Some luaItemSetDuration
  | _ => None
  end.

Arguments static_cast : simpl never.
Arguments to_string : simpl never.
Arguments std_floor : simpl never.
Arguments number_ltb : simpl never.

(** * Properties *)

(** Unfolds the monad and the stack primitives of a binding. *)
Ltac exec :=
  unfold call, getUserdataShared, getNumberD, getBooleanD, updateTileFlags;
  unfold getRawUserDataShared, deref, assign, isNumber, isString, isBoolean, getNumber,
    getNumber_double, getNumber_ItemAttribute, getNumber_ItemDecayState, getString,
    getBoolean, pushBoolean, pushString, lua_pushnil, lua_pushnumber, reportErrorFunc,
    readItem, readMonster, updateItem, updateMonster, onGame, isRemoved;
  unfold lua_value_at, lua_gettop, push, when;
  unfold bind, ret, gets, modify;
  simpl.

(** Resolves the userdata argument of a binding to the object it holds. *)
Ltac resolve_handle Hu Hp :=
  rewrite decide_True by (eapply lookup_lt_Some; exact Hu);
  simpl; rewrite Hu; simpl; rewrite Hp; simpl.

Section Properties.
Context {C : Collaborators}.

(** ** Marshalling *)

Lemma Qtruncate_inject_Z (z : Z) : Qtruncate (inject_Z z) = z.
Proof. unfold Qtruncate, inject_Z. simpl. apply Z.quot_1_r. Qed.

(** An integer that fits the target type is marshalled to itself. *)
Lemma static_cast_num (T : ctype) (z : Z) :
  in_range T z = true → static_cast T (Finite (inject_Z z)) = z.
Proof. intros Hr. unfold static_cast. by rewrite Qtruncate_inject_Z, Hr. Qed.

Lemma set_stack_id (st : State) : set_stack (stack st) st = st.
Proof. by destruct st. Qed.

Lemma set_stack_set_stack (s s' : list lua_value) (st : State) :
  set_stack s (set_stack s' st) = set_stack s st.
Proof. done. Qed.

(** ** Transform to the same item is the identity *)

(** C9. Transforming a live item into its own item id, with the sub-type left
    out, given as -1 or given as the item's current sub-type, returns [true]
    and changes nothing: the item, the handle map, the userdata and the
    notifications are as before. *)
Theorem luaItemTransform_same_id_unchanged
    (st : State) (a : nat) (u : Userdata) (item : nat) (subType : option Z) :
  udata st !! a = Some u →
  ptr u = Some item →
  let it := items (game st) item in
  in_range uint16_t (item_id it) = true →
  subType = None ∨ subType = Some (-1) ∨
    (subType = Some (Item_getSubType it) ∧ in_range int32_t (Item_getSubType it) = true) →
  call luaItemTransform ([LUserdata a; num (item_id it)] ++ optional_arg subType) st
  = ([LBoolean true], st).
Proof.
  intros Hu Hp it Hid Hsub.
  destruct Hsub as [-> | [-> | [-> Hr]]];
    unfold luaItemTransform, num; exec; resolve_handle Hu Hp;
    rewrite ?static_cast_num by done; fold it; exec;
    rewrite ?static_cast_num by done; fold it;
    rewrite !Z.eqb_refl, ?orb_true_r; simpl;
    by rewrite !set_stack_set_stack, set_stack_id.
Qed.

(** ** Handles follow the identity of an item *)

(** A handle found for an item resolves to that item. *)
Lemma handle_of_lookup (m : gmap Z nat) (item : nat) (h : Z) :
  handle_of m item = Some h → m !! h = Some item.
Proof.
  unfold handle_of. intros Hf.
  destruct (list_find _ _) as [[i [k v]]|] eqn:Hfind; simplify_eq/=.
  apply list_find_Some in Hfind as (Hi & Hv & _). simpl in Hv. subst v.
  apply elem_of_map_to_list. by eapply list_elem_of_lookup_2.
Qed.

(** An item that holds a handle keeps it when the handle is captured. *)
Lemma addThing_captures (env : ScriptEnvironment) (item : nat) (h : Z) :
  handle_of (localMap env) item = Some h →
  ScriptEnvironment_addThing item env = (h, env).
Proof. intros Hh. unfold ScriptEnvironment_addThing. by rewrite Hh. Qed.


(** An item without handle is the value of no handle. *)
Lemma handle_of_None (m : gmap Z nat) (item : nat) (h : Z) :
  handle_of m item = None → m !! h ≠ Some item.
Proof.
  unfold handle_of. intros Hf Hl.
  destruct (list_find _ _) eqn:Hfind; [done|].
  apply list_find_None in Hfind. rewrite Forall_forall in Hfind.
  apply (Hfind (h, item)); [by apply elem_of_map_to_list|done].
Qed.

Lemma handle_of_insert_fresh (m : gmap Z nat) (item : nat) (uid : Z) :
  handle_of m item = None → handle_of (<[uid := item]> m) item = Some uid.
Proof.
  intros Hn. destruct (handle_of (<[uid := item]> m) item) as [h|] eqn:Hh.
  - apply handle_of_lookup in Hh. destruct (decide (h = uid)) as [->|Hne]; [done|].
    rewrite lookup_insert_ne in Hh by done. by apply handle_of_None with (h := h) in Hn.
  - exfalso. apply handle_of_None with (h := uid) in Hh. apply Hh. by rewrite lookup_insert_eq.
Qed.

(** The handle [addThing] answers is the handle the item holds from then
    on. *)
Lemma addThing_registered (env : ScriptEnvironment) (item : nat) :
  handle_of (localMap (ScriptEnvironment_addThing item env).2) item
  = Some (ScriptEnvironment_addThing item env).1.
Proof.
  unfold ScriptEnvironment_addThing.
  destruct (handle_of (localMap env) item) as [h|] eqn:Hh; simpl; [done|].
  by apply handle_of_insert_fresh.
Qed.







(** ** Typed attributes *)

Lemma attributeArg_run (st : State) (args : list lua_value) (key : lua_value) :
  args !! 1%nat = Some key →
  attributeArg 2 (set_stack args st) = (attribute_of_key key, set_stack args st).
Proof.
  intros Hk. unfold attributeArg. exec. rewrite Hk.
  destruct key; simpl; exec; rewrite ?Hk; simpl; exec; by rewrite ?Hk.
Qed.

(** C2, as the code has it.  Removing the unique-id key or the
    duration-timestamp key, and writing the duration-timestamp key, are
    rejected: the script receives [false], an error is reported, and the
    state (the item's attribute set with it) is otherwise as before.
    Writing the unique-id key is not rejected: the value is stored like any
    other integer attribute and the script receives [true]. *)
Theorem protected_keys_rejected
    (st : State) (a : nat) (u : Userdata) (item : nat) (key value : lua_value) :
  udata st !! a = Some u →
  ptr u = Some item →
  (attribute_of_key key = DURATION_TIMESTAMP →
   rejected st (call luaItemSetAttribute [LUserdata a; key; value] st)) ∧
  (attribute_of_key key = UNIQUEID ∨ attribute_of_key key = DURATION_TIMESTAMP →
   rejected st (call luaItemRemoveAttribute [LUserdata a; key] st)) ∧
  (attribute_of_key key = UNIQUEID →
   call luaItemSetAttribute [LUserdata a; key; value] st
   = ([LBoolean true],
      set_game
        (Game_notify (TileFlagsUpdated item)
           (Game_updateItem item
              (Item_setAttribute UNIQUEID
                 (IntegerValue (static_cast int64_t (lua_tonumber value))))
              (game st)))
        st)).
Proof.
  intros Hu Hp. split; [|split].
  - intros Hk. unfold rejected, luaItemSetAttribute. exec. resolve_handle Hu Hp.
    rewrite (attributeArg_run _ _ key) by done. rewrite Hk. exec.
    split; [done|]. eexists. by destruct st.
  - intros [Hk|Hk]; unfold rejected, luaItemRemoveAttribute; exec; resolve_handle Hu Hp;
      rewrite (attributeArg_run _ _ key) by done; rewrite Hk; exec;
      (split; [done|]); eexists; by destruct st.
  - intros Hk. unfold luaItemSetAttribute. exec. resolve_handle Hu Hp.
    rewrite (attributeArg_run _ _ key) by done. rewrite Hk. exec.
    by destruct st.
Qed.

(** C3. Writing the decay-state attribute calls the decay engine: its stop
    path when the value is DECAYING_FALSE (None) or DECAYING_STOPPING, its
    start path for every other value; the attribute itself is not written.
    Writing the duration attribute sets the decay state to DECAYING_PENDING,
    stores the duration and then calls the start path, which receives the
    item in that state. *)
Theorem decay_state_and_duration_coupled
    (st : State) (a : nat) (u : Userdata) (item : nat) (key value : lua_value) :
  udata st !! a = Some u →
  ptr u = Some item →
  (attribute_of_key key = DECAYSTATE →
   let decayState := toItemDecayState (lua_tonumber value) in
   call luaItemSetAttribute [LUserdata a; key; value] st
   = ([LBoolean true],
      set_game
        (if bool_decide (decayState = DECAYING_FALSE ∨ decayState = DECAYING_STOPPING)
         then Decay_stopDecay item (game st)
         else Decay_startDecay item (game st))
        st)) ∧
  (attribute_of_key key = DURATION →
   let duration := static_cast int32_t (lua_tonumber value) in
   let pending :=
     Game_updateItem item (Item_setDuration duration)
       (Game_updateItem item (Item_setDecaying DECAYING_PENDING) (game st)) in
   call luaItemSetAttribute [LUserdata a; key; value] st
   = ([LBoolean true], set_game (Decay_startDecay item pending) st) ∧
   decaying (items pending item) = DECAYING_PENDING ∧
   attributes (items pending item) !! DURATION = Some (IntegerValue duration)).
Proof.
  intros Hu Hp. split.
  - intros Hk decayState. unfold luaItemSetAttribute. exec. resolve_handle Hu Hp.
    rewrite (attributeArg_run _ _ key) by done. rewrite Hk. exec.
    fold decayState. case_bool_decide; exec; by destruct st.
  - intros Hk duration pending. split; [|split].
    + unfold luaItemSetAttribute. exec. resolve_handle Hu Hp.
      rewrite (attributeArg_run _ _ key) by done. rewrite Hk. exec.
      by destruct st.
    + subst pending. simpl. by rewrite !decide_True.
    + subst pending. simpl. rewrite !decide_True by done. simpl.
      by rewrite lookup_insert_eq.
Qed.

(** ** Monsters *)


(** C7. For each of the four hazard modifiers: called with a boolean, the
    binding stores it and returns the flag as now stored, which is that
    boolean, and no other flag changes; called without argument, it returns
    the stored flag and changes nothing. *)
Theorem hazard_modifier_get_set
    (md : HazardModifier) (st : State) (a : nat) (u : Userdata) (monster : nat) (b : bool) :
  udata st !! a = Some u →
  ptr u = Some monster →
  call (hazard_binding md) [LUserdata a; LBoolean b] st
  = ([LBoolean b], set_game (Game_updateMonster monster (hazard_setter md b) (game st)) st) ∧
  hazard_flag md (hazard_setter md b (monsters (game st) monster)) = b ∧
  (∀ md', md' ≠ md →
     hazard_flag md' (hazard_setter md b (monsters (game st) monster))
     = hazard_flag md' (monsters (game st) monster)) ∧
  call (hazard_binding md) [LUserdata a] st
  = ([LBoolean (hazard_flag md (monsters (game st) monster))], st).
Proof.
  intros Hu Hp. repeat split.
  - destruct md; unfold hazard_binding, luaMonsterHazardCrit, luaMonsterHazardDodge,
      luaMonsterHazardDamageBoost, luaMonsterHazardDefenseBoost; exec;
      resolve_handle Hu Hp; rewrite !decide_True by done; by destruct st, b.
  - by destruct md.
  - intros md' Hne. by destruct md, md'.
  - destruct md; unfold hazard_binding, luaMonsterHazardCrit, luaMonsterHazardDodge,
      luaMonsterHazardDamageBoost, luaMonsterHazardDefenseBoost; exec;
      resolve_handle Hu Hp; by destruct st.
Qed.

(** ** Custom attributes *)

(** The test of the source, [std::floor(x) < x], holds exactly of the numbers
    with a non-zero fractional part. *)
Lemma floor_lt_iff_fractional (v : lua_Number) :
  number_ltb (std_floor v) v = true ↔ has_fractional_part v.
Proof.
  destruct v as [q| | |]; unfold number_ltb, std_floor; simpl; try by split.
  pose proof (Qfloor_le q) as Hle.
  rewrite negb_true_iff, <- not_true_iff_false, Qle_bool_iff.
  split; intros Hn Hc; apply Hn; lra.
Qed.

Lemma custom_key_run (st : State) (args : list lua_value) (key : lua_value) (k : string) :
  args !! 1%nat = Some key →
  custom_key key = Some k →
  (isNumber 2 (set_stack args st)).1 || (isString 2 (set_stack args st)).1 = true ∧
  (if (isNumber 2 (set_stack args st)).1
   then to_string (getNumber int64_t 2 (set_stack args st)).1
   else (getString 2 (set_stack args st)).1) = k.
Proof.
  intros Hk Hc. exec. rewrite Hk. destruct key; simplify_eq/=; done.
Qed.

(** C6. Storing a number under a custom key keeps it as a Double exactly when
    it has a non-zero fractional part and as an Int64 (the number converted
    to a 64-bit integer) otherwise, and reading the same key back pushes what
    the stored variant pushes. *)
Theorem custom_attribute_numeric_kind
    (st : State) (a : nat) (u : Userdata) (item : nat) (key : lua_value) (k : string)
    (v : lua_Number) :
  udata st !! a = Some u →
  ptr u = Some item →
  custom_key key = Some k →
  let st' := (call luaItemSetCustomAttribute [LUserdata a; key; LNumber v] st).2 in
  ∃ stored : CustomAttribute,
    Item_getCustomAttribute k (items (game st') item) = Some stored ∧
    ((has_fractional_part v ∧ stored = CustomDouble v) ∨
     (¬ has_fractional_part v ∧ stored = CustomInt64 (static_cast int64_t v))) ∧
    call luaItemGetCustomAttribute [LUserdata a; key] st'
    = ([CustomAttribute_pushToLua stored], st').
Proof.
  intros Hu Hp Hk st'.
  exists (if number_ltb (std_floor v) v then CustomDouble v
          else CustomInt64 (static_cast int64_t v)).
  pose proof (floor_lt_iff_fractional v) as Hfrac.
  assert (Hst' : st' = set_game (Game_updateItem item (Item_setCustomAttribute k
             (if number_ltb (std_floor v) v then CustomDouble v
              else CustomInt64 (static_cast int64_t v))) (game st)) st).
  { subst st'. unfold luaItemSetCustomAttribute. exec. resolve_handle Hu Hp.
    destruct key; simplify_eq/=; destruct (number_ltb (std_floor v) v); by destruct st. }
  rewrite Hst'. clear Hst' st'. split; [|split].
  - simpl. rewrite decide_True by done. unfold Item_getCustomAttribute. simpl.
    by rewrite lookup_insert_eq.
  - destruct (number_ltb (std_floor v) v).
    + left. split; [by apply Hfrac|done].
    + right. split; [|done]. intros Hf. by apply Hfrac in Hf.
  - unfold luaItemGetCustomAttribute. exec. resolve_handle Hu Hp.
    destruct key; simplify_eq/=; rewrite decide_True by done;
      unfold Item_getCustomAttribute; simpl; rewrite lookup_insert_eq; exec;
      by destruct st.
Qed.



Lemma luaItemSetCustomAttribute_run
    (st : State) (a : nat) (u : Userdata) (item : nat) (key value : lua_value) (k : string) :
  udata st !! a = Some u →
  ptr u = Some item →
  custom_key key = Some k →
  call luaItemSetCustomAttribute [LUserdata a; key; value] st
  = match custom_value value with
    | Some c =>
        ([LBoolean true],
         set_game (Game_updateItem item (Item_setCustomAttribute k c) (game st)) st)
    | None => ([LNil], st)
    end.
Proof.
  intros Hu Hp Hk. unfold luaItemSetCustomAttribute. exec. resolve_handle Hu Hp.
  destruct key; simplify_eq/=;
    destruct value as [|b|x| | |]; simpl;
    try destruct (number_ltb (std_floor x) x); try destruct b; by destruct st.
Qed.

Lemma luaItemGetCustomAttribute_run
    (st : State) (a : nat) (u : Userdata) (item : nat) (key : lua_value) (k : string) :
  udata st !! a = Some u →
  ptr u = Some item →
  custom_key key = Some k →
  call luaItemGetCustomAttribute [LUserdata a; key] st
  = ([match Item_getCustomAttribute k (items (game st) item) with
      | Some c => CustomAttribute_pushToLua c
      | None => LNil
      end], st).
Proof.
  intros Hu Hp Hk. unfold luaItemGetCustomAttribute. exec. resolve_handle Hu Hp.
  destruct key; simplify_eq/=;
    destruct (Item_getCustomAttribute _ _); exec; by destruct st.
Qed.

(** C10, as the code has it.  For an integer [n] that fits the 64-bit
    integer a numeric key is converted to, the numeric key [n] and the string
    key that is the decimal rendering of [n] address the same custom
    attribute of an item: a value stored under the one is the entry under
    that rendering and is read back under the other, and the other way
    round; storing and reading under the one is storing and reading under
    the other, whatever the first argument and the value; and two integers
    with the same rendering are the same integer. *)
Theorem custom_attribute_numeric_key (n : Z) :
  in_range int64_t n = true →
  (∀ (st : State) (a : nat) (u : Userdata) (item : nat) (value : lua_value)
     (c : CustomAttribute) (key key' : lua_value),
     udata st !! a = Some u →
     ptr u = Some item →
     custom_value value = Some c →
     key = num n ∨ key = LString (to_string n) →
     key' = num n ∨ key' = LString (to_string n) →
     let st' := (call luaItemSetCustomAttribute [LUserdata a; key; value] st).2 in
     Item_getCustomAttribute (to_string n) (items (game st') item) = Some c ∧
     call luaItemGetCustomAttribute [LUserdata a; key'] st'
     = ([CustomAttribute_pushToLua c], st')) ∧
  (∀ (st : State) (self value : lua_value),
     call luaItemSetCustomAttribute [self; num n; value] st
     = call luaItemSetCustomAttribute [self; LString (to_string n); value] st ∧
     call luaItemGetCustomAttribute [self; num n] st
     = call luaItemGetCustomAttribute [self; LString (to_string n)] st) ∧
  custom_key (num n) = custom_key (LString (to_string n)) ∧
  (∀ m : Z, to_string m = to_string n → m = n).
Proof.
  intros Hn.
  assert (Hkey : ∀ key, key = num n ∨ key = LString (to_string n) →
                 custom_key key = Some (to_string n)).
  { intros key [-> | ->]; [|done]. unfold custom_key, num. by rewrite static_cast_num. }
  split; [|split; [|split]].
  - intros st a u item value c key key' Hu Hp Hc Hk Hk' st'.
    apply Hkey in Hk, Hk'. subst st'.
    rewrite (luaItemSetCustomAttribute_run _ _ _ _ _ _ _ Hu Hp Hk), Hc. simpl.
    rewrite (luaItemGetCustomAttribute_run (set_game _ st) _ _ _ _ _ Hu Hp Hk'). simpl.
    rewrite decide_True by done. unfold Item_getCustomAttribute. simpl.
    by rewrite lookup_insert_eq.
  - intros st self value. split.
    + unfold luaItemSetCustomAttribute, num.
      destruct self; exec; try done.
      case_decide; simpl; [|done].
      destruct (udata st !! addr ≫= ptr); simpl; [|done].
      rewrite static_cast_num by done.
      by destruct value as [| |x| | |]; simpl; try destruct (number_ltb (std_floor x) x).
    + unfold luaItemGetCustomAttribute, num.
      destruct self; exec; try done.
      case_decide; simpl; [|done].
      destruct (udata st !! addr ≫= ptr); simpl; [|done].
      rewrite static_cast_num by done.
      by destruct (Item_getCustomAttribute _ _).
  - unfold custom_key, num. by rewrite static_cast_num.
  - intros m Hm. unfold to_string in Hm. by apply (inj pretty) in Hm.
Qed.

(** A number beyond the 64-bit integers is no key of its own rendering,
    whatever 64-bit integer its conversion yields. *)
Lemma numeric_key_beyond_int64 (n : Z) :
  in_range int64_t n = false →
  in_range int64_t (static_cast int64_t (Finite (inject_Z n))) = true →
  custom_key (num n) ≠ custom_key (LString (to_string n)).
Proof.
  intros Hout Hin. unfold custom_key, num. intros [= Hkey].
  unfold to_string in Hkey. apply (inj pretty) in Hkey. congruence.
Qed.


(** ** Entering a script *)

Lemma getCreatureClass_variant (c : Creature) :
  getCreatureClass (Some c) = variant_name c.
Proof. unfold getCreatureClass, variant_name, getNpc, getMonster, getPlayer. by destruct (variant c). Qed.

(** C5, on the code.  Entering a script past the maximum nesting depth
    depends on the target creature of the callback.  With a live target the
    entry returns [false]; the callback is as before; nothing is pushed and
    no environment is reserved: the state is as before but for one line of
    the log, whose arguments are the class and the name of the creature; and
    once an enclosing call has left, a new entry succeeds.  With an expired
    target the name is read through the null pointer that [lock()] returned:
    the entry has no result, nothing is returned and nothing is logged. *)
Theorem startScriptInterface_stack_overflow
    (scriptId : Z) (cb : CreatureCallback) (st : State) :
  scriptId ≠ -1 →
  length (envs st) = scriptEnvMax →
  match m_targetCreature cb with
  | Some creature =>
      ∃ fmt st',
        startScriptInterface scriptId cb st = Some (false, cb, st') ∧
        st' = set_logger
                (logger st ++ [mkLogLine fmt [variant_name creature; creature_name creature]])
                st ∧
        (∀ scriptId' : Z, scriptId' ≠ -1 → (0 < scriptEnvMax)%nat →
           ∃ cb'' st'',
             startScriptInterface scriptId' cb (resetScriptEnv st').2
             = Some (true, cb'', st'') ∧
             stack st'' = stack st ++ [LFunction scriptId'])
  | None => startScriptInterface scriptId cb st = None
  end.
Proof.
  intros Hid Hdepth. destruct (m_targetCreature cb) as [creature|] eqn:Htarget.
  - eexists _, _. split; [|split; [reflexivity|]].
    + unfold startScriptInterface, reserveScriptEnv.
      rewrite decide_False by done. rewrite decide_False by lia. simpl.
      rewrite Htarget. unfold g_logger_error, modify.
      by rewrite getCreatureClass_variant.
    + intros scriptId' Hid' Hmax. eexists _, _.
      unfold startScriptInterface, reserveScriptEnv, resetScriptEnv, modify. simpl.
      rewrite decide_False by done.
      rewrite decide_True by (rewrite length_tl; lia). simpl.
      split; reflexivity.
  - unfold startScriptInterface, reserveScriptEnv.
    rewrite decide_False by done. rewrite decide_False by lia. simpl.
    by rewrite Htarget.
Qed.

(** ** Missing handles *)

Lemma drop_last_one {A} (l : list A) (x : A) :
  drop (length (l ++ [x]) - 1) (l ++ [x]) = [x].
Proof.
  rewrite length_app. simpl.
  replace (length l + 1 - 1)%nat with (length l) by lia.
  by rewrite drop_app_length.
Qed.

Lemma drop_all {A} (l : list A) : drop (length l - 0) l = [].
Proof. rewrite Nat.sub_0_r. apply drop_all. Qed.

(** The argument readers leave the state as it is. *)
Lemma getUserdataShared_run (arg : nat) (st : State) :
  getUserdataShared arg st = ((getUserdataShared arg st).1, st).
Proof.
  exec. destruct (default LNil (stack st !! pred arg)); simpl; try done.
  by case_decide.
Qed.

Lemma getRawUserDataShared_run (arg : nat) (st : State) :
  getRawUserDataShared arg st = ((getRawUserDataShared arg st).1, st).
Proof. exec. by destruct (default LNil (stack st !! pred arg)). Qed.

Lemma getNumberD_run (T : ctype) (arg : nat) (d : Z) (st : State) :
  getNumberD T arg d st = ((getNumberD T arg d st).1, st).
Proof. exec. by case_decide. Qed.

Lemma getBooleanD_run (arg : nat) (d : bool) (st : State) :
  getBooleanD arg d st = ((getBooleanD arg d st).1, st).
Proof. exec. by case_decide. Qed.

(** A null handle, read through the raw pointer: no userdata, or a userdata
    that holds the null pointer. *)
Lemma null_handle_raw (args : list lua_value) (st : State) :
  null_handle args st →
  match (getRawUserDataShared 1 (set_stack args st)).1 with
  | Some a => udata st !! a ≫= ptr = None
  | None => True
  end.
Proof.
  unfold null_handle. exec.
  destruct (default LNil (args !! 0%nat)); simpl; try done.
  by case_decide.
Qed.

(** X1. Each binding embedded in full takes, on a null handle, the branch listed
    for it in [missingHandle]. *)
Lemma binding_model_missingHandle (b : Binding) (f : M nat) (args : list lua_value) (st : State) :
  binding_model b = Some f →
  null_handle args st →
  f (set_stack args st) = missingHandle b (set_stack args st).
Proof.
  intros Hb Hnull. pose proof (null_handle_raw _ _ Hnull) as Hraw.
  unfold null_handle in Hnull.
  destruct b; simplify_eq/=.
  all: unfold luaItemIsItem, luaItemSplit, luaItemSetAttribute, luaItemRemoveAttribute,
    luaItemGetCustomAttribute, luaItemSetCustomAttribute, luaItemTransform,
    luaMonsterIsMonster, luaMonsterSetForgeStack, luaMonsterGetName, luaMonsterHazard,
    luaMonsterHazardCrit, luaMonsterHazardDodge, luaMonsterHazardDamageBoost,
    luaMonsterHazardDefenseBoost, luaVocationGetId.
  all: unfold bind at 1; try rewrite getNumberD_run.
  all: try (unfold bind at 1).
  all: try (rewrite getUserdataShared_run, Hnull; try rewrite getBooleanD_run; done).
  all: rewrite getRawUserDataShared_run.
  all: destruct (getRawUserDataShared 1 (set_stack args st)).1 as [p|]; [|done].
  all: unfold bind at 1, deref, gets; simpl; by rewrite Hraw.
Qed.

(** The item constructor on a uid that resolves to nothing takes the branch
    listed for it. *)
Lemma luaItemCreate_missingHandle (args : list lua_value) (st : State) :
  ScriptEnvironment_getItemByUID
    (getNumber uint32_t 2 (set_stack args st)).1 (getScriptEnv st) = None →
  luaItemCreate (set_stack args st) = missingHandle ItemCreate (set_stack args st).
Proof.
  unfold luaItemCreate. exec. unfold getScriptEnv. simpl. by intros ->.
Qed.

(** C8, as the code has it.  On a handle that resolves to no live object,
    every exposed binding but the two class tests reports "not found" (the
    script receives nil or nothing, or a not-found error is reported), and
    the two class tests answer [false] without reporting an error; no
    binding changes the game, the environments or the userdata. *)
Theorem missing_handle_reported (b : Binding) (args : list lua_value) (st : State) :
  let r := call (missingHandle b) args st in
  (if is_class_test b then r.1 = [LBoolean false] ∧ errors r.2 = errors st
   else reports_not_found st r) ∧
  no_mutation st r.2.
Proof.
  unfold reports_not_found, no_mutation.
  destruct b; simpl; exec; rewrite ?drop_last_one, ?drop_all; naive_solver.
Qed.

End Properties.

(** * The properties on the concrete world *)

Section Examples.
#[local] Existing Instance sampleCollaborators.


(** On the sample, the handle of the coins resolves to the remaining stack
    after the split of ten, to nothing after the split of all fifty, and to
    the new item after the transform. *)
Lemma handle_of_coins_after :
  ScriptEnvironment_getItemByUID 70000
    (getScriptEnv (call luaItemSplit [LUserdata 0; num 10] sampleState).2) = Some 1%nat ∧
  ScriptEnvironment_getItemByUID 70000
    (getScriptEnv (call luaItemSplit [LUserdata 0; num 50] sampleState).2) = None ∧
  ScriptEnvironment_getItemByUID 70000
    (getScriptEnv (call luaItemTransform [LUserdata 0; num 2000] sampleState).2) = Some 2%nat.
Proof. repeat split; vm_compute; reflexivity. Qed.

Lemma protected_keys_rejected_witness :
  rejected sampleState (call luaItemRemoveAttribute [LUserdata 0; LString "uid"] sampleState).
Proof.
  apply (proj1 (proj2 (protected_keys_rejected sampleState 0%nat
                         (mkUserdata (Some 1%nat) (Some "Item")) 1%nat
                         (LString "uid") LNil eq_refl eq_refl))).
  left. reflexivity.
Defined.

(** Writing the unique-id key (attribute 3 of the sample) is accepted: the
    script receives [true], no error is reported and the attribute is set. *)
Lemma setAttribute_uniqueid_accepted :
  attribute_of_key (num 3) = UNIQUEID ∧
  (call luaItemSetAttribute [LUserdata 0; num 3; num 1234] sampleState).1 = [LBoolean true] ∧
  errors (call luaItemSetAttribute [LUserdata 0; num 3; num 1234] sampleState).2 = [] ∧
  attributes (items (game sampleState) 1%nat) !! UNIQUEID = None ∧
  attributes
    (items (game (call luaItemSetAttribute [LUserdata 0; num 3; num 1234] sampleState).2) 1%nat)
    !! UNIQUEID = Some (IntegerValue 1234) ∧
  ¬ rejected sampleState (call luaItemSetAttribute [LUserdata 0; num 3; num 1234] sampleState).
Proof.
  repeat split; try (vm_compute; reflexivity).
  intros [Hfalse _]. vm_compute in Hfalse. discriminate Hfalse.
Qed.

(** Setting the decay state of the coins to 3 (DECAYING_STOPPING in the
    sample) takes the stop path. *)
Lemma decay_state_and_duration_coupled_witness :
  call luaItemSetAttribute [LUserdata 0; num 20; num 3] sampleState
  = ([LBoolean true], set_game (Decay_stopDecay 1%nat (game sampleState)) sampleState).
Proof.
  exact (proj1 (decay_state_and_duration_coupled sampleState 0%nat
                  (mkUserdata (Some 1%nat) (Some "Item")) 1%nat (num 20) (num 3)
                  eq_refl eq_refl) eq_refl).
Defined.


(** Stack 15 of monster 7: Fiendish without badge. *)
Lemma forge_stack_15_is_fiendish :
  creatureIcons
    (monsters (game (call luaMonsterSetForgeStack [LUserdata 2; num 15] sampleState).2) 7%nat)
    !! "forge" = Some (mkCreatureIcon Fiendish 0).
Proof. vm_compute. reflexivity. Qed.

(** The seventeenth nested entry of a callback whose target has expired:
    the name is read through a null pointer. *)
Lemma startScriptInterface_stack_overflow_witness :
  m_targetCreature (mkCreatureCallback None false 0) = None ∧
  length (envs sampleState_full) = scriptEnvMax ∧
  startScriptInterface 5 (mkCreatureCallback None false 0) sampleState_full = None.
Proof.
  assert (Hid : 5 ≠ -1) by discriminate.
  split; [reflexivity|]. split; [reflexivity|].
  exact (startScriptInterface_stack_overflow 5 (mkCreatureCallback None false 0)
           sampleState_full Hid eq_refl).
Defined.

(** The seventeenth nested entry of a callback whose target is alive fails
    and logs the monster. *)
Lemma startScriptInterface_overflow_logs_monster :
  ∃ fmt,
    startScriptInterface 5 sampleCallback sampleState_full
    = Some (false, sampleCallback,
            set_logger
              (logger sampleState_full ++ [mkLogLine fmt ["Monster"; "Darklight Matter"]])
              sampleState_full).
Proof. eexists. vm_compute. reflexivity. Qed.

(** One and a half is stored as a Double under key 5. *)
Lemma custom_attribute_numeric_kind_witness :
  ∃ stored : CustomAttribute,
    Item_getCustomAttribute "5"
      (items (game (call luaItemSetCustomAttribute
                      [LUserdata 0; num 5; LNumber (Finite (3 # 2))] sampleState).2) 1%nat)
    = Some stored ∧
    ((has_fractional_part (Finite (3 # 2)) ∧ stored = CustomDouble (Finite (3 # 2))) ∨
     (¬ has_fractional_part (Finite (3 # 2)) ∧
      stored = CustomInt64 (static_cast int64_t (Finite (3 # 2))))) ∧
    call luaItemGetCustomAttribute [LUserdata 0; num 5]
      (call luaItemSetCustomAttribute
         [LUserdata 0; num 5; LNumber (Finite (3 # 2))] sampleState).2
    = ([CustomAttribute_pushToLua stored],
       (call luaItemSetCustomAttribute
          [LUserdata 0; num 5; LNumber (Finite (3 # 2))] sampleState).2).
Proof.
  exact (custom_attribute_numeric_kind sampleState 0%nat
           (mkUserdata (Some 1%nat) (Some "Item")) 1%nat (num 5) "5" (Finite (3 # 2))
           eq_refl eq_refl eq_refl).
Defined.

(** Setting and then reading the crit modifier of monster 7. *)
Lemma hazard_modifier_get_set_witness :
  call (hazard_binding HazardCrit) [LUserdata 2; LBoolean true] sampleState
  = ([LBoolean true],
     set_game (Game_updateMonster 7 (hazard_setter HazardCrit true) (game sampleState))
       sampleState).
Proof.
  exact (proj1 (hazard_modifier_get_set HazardCrit sampleState 2%nat
                  (mkUserdata (Some 7%nat) (Some "Monster")) 7%nat true eq_refl eq_refl)).
Defined.

(** The class test of an item on a null handle answers [false]: neither nil,
    nor nothing, nor a reported error. *)
Lemma luaItemIsItem_null_handle_false :
  null_handle [LUserdata 1] sampleState ∧
  call luaItemIsItem [LUserdata 1] sampleState = ([LBoolean false], sampleState) ∧
  ¬ reports_not_found sampleState (call luaItemIsItem [LUserdata 1] sampleState).
Proof.
  split; [reflexivity|]. split; [reflexivity|].
  intros [H | [H | [H | H]]]; vm_compute in H; discriminate H.
Qed.

(** Transforming the fifty coins into fifty coins. *)
Lemma luaItemTransform_same_id_unchanged_witness :
  call luaItemTransform [LUserdata 0; num 3031; num 50] sampleState
  = ([LBoolean true], sampleState).
Proof.
  assert (Hsub : Some 50 = @None Z ∨ Some 50 = Some (-1) ∨
                 (Some 50 = Some (Item_getSubType (items (game sampleState) 1%nat)) ∧
                  in_range int32_t (Item_getSubType (items (game sampleState) 1%nat)) = true)).
  { right. right. split; reflexivity. }
  exact (luaItemTransform_same_id_unchanged sampleState 0%nat
           (mkUserdata (Some 1%nat) (Some "Item")) 1%nat (Some 50) eq_refl eq_refl eq_refl Hsub).
Defined.

(** A boolean stored under key 5 is read back under key "5". *)
Lemma custom_attribute_numeric_key_witness :
  call luaItemGetCustomAttribute [LUserdata 0; LString "5"]
    (call luaItemSetCustomAttribute [LUserdata 0; num 5; LBoolean true] sampleState).2
  = ([LBoolean true],
     (call luaItemSetCustomAttribute [LUserdata 0; num 5; LBoolean true] sampleState).2).
Proof.
  exact (proj2 (proj1 (custom_attribute_numeric_key 5 eq_refl) sampleState 0%nat
                  (mkUserdata (Some 1%nat) (Some "Item")) 1%nat (LBoolean true)
                  (CustomBool true) (num 5) (LString "5")
                  eq_refl eq_refl eq_refl (or_introl eq_refl) (or_intror eq_refl))).
Defined.

(** The integer 2^63 does not fit the 64-bit integer a numeric key is
    converted to: a value stored under the numeric key 2^63 is not read
    back under the string key "9223372036854775808", and a value stored
    under that string key is not read back under the numeric key. *)
Lemma custom_attribute_key_beyond_int64 :
  to_string (2 ^ 63) = "9223372036854775808" ∧
  in_range int64_t (2 ^ 63) = false ∧
  call luaItemSetCustomAttribute [LUserdata 0; num (2 ^ 63); LBoolean true] sampleState
  ≠ call luaItemSetCustomAttribute
      [LUserdata 0; LString "9223372036854775808"; LBoolean true] sampleState ∧
  (call luaItemGetCustomAttribute [LUserdata 0; LString "9223372036854775808"]
     (call luaItemSetCustomAttribute [LUserdata 0; num (2 ^ 63); LBoolean true]
        sampleState).2).1
  = [LNil] ∧
  (call luaItemGetCustomAttribute [LUserdata 0; num (2 ^ 63)]
     (call luaItemSetCustomAttribute
        [LUserdata 0; LString "9223372036854775808"; LBoolean true] sampleState).2).1
  = [LNil].
Proof.
  split; [vm_compute; reflexivity|]. split; [vm_compute; reflexivity|].
  split; [|split; vm_compute; reflexivity].
  intros Heq.
  apply (f_equal (λ r, customAttributeMap (items (game r.2) 1%nat) !! "9223372036854775808"))
    in Heq.
  vm_compute in Heq. discriminate Heq.
Qed.

(** The split of a userdata that holds the null pointer. *)
Lemma binding_model_missingHandle_witness :
  luaItemSplit (set_stack [LUserdata 1] sampleState)
  = missingHandle ItemSplit (set_stack [LUserdata 1] sampleState).
Proof.
  exact (binding_model_missingHandle ItemSplit luaItemSplit [LUserdata 1] sampleState
           eq_refl eq_refl).
Defined.

End Examples.

(** * Further properties *)

Section MoreProperties.
Context {C : Collaborators} {V : Services}.

(** ** Integer conversions *)

Lemma integral_cast_in_range (T : ctype) (z : Z) :
  in_range T z = true → integral_cast T z = z.
Proof.
  unfold in_range, integral_cast. intros [Hlo Hhi]%andb_true_iff.
  apply Z.leb_le in Hlo, Hhi.
  rewrite Z.mod_small; [lia|].
  destruct T; simpl in *; lia.
Qed.

(** ** The result of a call with further arguments *)

Lemma drop_last_cons {A} (x y : A) (l : list A) :
  drop (length (l ++ [y]) - 0) (x :: l ++ [y]) = [y].
Proof.
  rewrite Nat.sub_0_r, length_app. simpl.
  replace (length l + 1)%nat with (S (length l)) by lia. simpl. by rewrite drop_app_length.
Qed.

(** ** Typed attributes, written and read back *)

Lemma luaItemSetAttribute_plain
    (st : State) (a : nat) (u : Userdata) (item : nat) (key value : lua_value) :
  udata st !! a = Some u →
  ptr u = Some item →
  plain_integer_key (attribute_of_key key) = true →
  call luaItemSetAttribute [LUserdata a; key; value] st
  = ([LBoolean true],
     set_game
       (Game_notify (TileFlagsUpdated item)
          (Game_updateItem item
             (Item_setAttribute (attribute_of_key key)
                (IntegerValue (static_cast int64_t (lua_tonumber value))))
             (game st)))
       st).
Proof.
  intros Hu Hp Hk. unfold luaItemSetAttribute. exec. resolve_handle Hu Hp.
  rewrite (attributeArg_run _ _ key) by done.
  destruct (attribute_of_key key); simplify_eq/=; exec; by destruct st.
Qed.

Lemma luaItemSetAttribute_string
    (st : State) (a : nat) (u : Userdata) (item : nat) (key value : lua_value) :
  udata st !! a = Some u →
  ptr u = Some item →
  isAttributeString (attribute_of_key key) = true →
  call luaItemSetAttribute [LUserdata a; key; value] st
  = ([LBoolean true],
     set_game
       (Game_notify (TileFlagsUpdated item)
          (Game_updateItem item
             (Item_setAttribute (attribute_of_key key) (StringValue (lua_tostring value)))
             (game st)))
       st).
Proof.
  intros Hu Hp Hk. unfold luaItemSetAttribute. exec. resolve_handle Hu Hp.
  rewrite (attributeArg_run _ _ key) by done.
  destruct (attribute_of_key key); simplify_eq/=; exec; by destruct st.
Qed.

Lemma luaItemGetAttribute_run
    (st : State) (a : nat) (u : Userdata) (item : nat) (key : lua_value) :
  udata st !! a = Some u →
  ptr u = Some item →
  let attribute := attribute_of_key key in
  let it := items (game st) item in
  call luaItemGetAttribute [LUserdata a; key] st
  = ([if isAttributeInteger attribute then
        if bool_decide (attribute = DURATION) then num (Item_getDuration it)
        else num (Item_getAttribute int64_t attribute it)
      else if isAttributeString attribute then LString (Item_getAttribute_string attribute it)
      else LNil], st).
Proof.
  intros Hu Hp attribute it. unfold luaItemGetAttribute. exec. resolve_handle Hu Hp.
  rewrite (attributeArg_run _ _ key) by done. fold attribute. exec. fold it.
  destruct (isAttributeInteger attribute); [case_bool_decide|destruct (isAttributeString attribute)];
    exec; by destruct st.
Qed.

Lemma luaItemHasAttribute_run
    (st : State) (a : nat) (u : Userdata) (item : nat) (key : lua_value) :
  udata st !! a = Some u →
  ptr u = Some item →
  call luaItemHasAttribute [LUserdata a; key] st
  = ([LBoolean (Item_hasAttribute (attribute_of_key key) (items (game st) item))], st).
Proof.
  intros Hu Hp. unfold luaItemHasAttribute. exec. resolve_handle Hu Hp.
  rewrite (attributeArg_run _ _ key) by done. exec. by destruct st.
Qed.

(** X2. A value written with setAttribute under an integer-valued key other
    than the decay state, the duration and the duration timestamp, or under
    a string-valued key, is what getAttribute reads back under that key, and
    hasAttribute answers true; the items' state is not changed by the two
    readers. *)
Theorem typed_attribute_set_get
    (st : State) (a : nat) (u : Userdata) (item : nat) (key : lua_value) :
  udata st !! a = Some u →
  ptr u = Some item →
  (∀ v : Z,
     plain_integer_key (attribute_of_key key) = true →
     in_range int64_t v = true →
     let st' := (call luaItemSetAttribute [LUserdata a; key; num v] st).2 in
     call luaItemGetAttribute [LUserdata a; key] st' = ([num v], st') ∧
     call luaItemHasAttribute [LUserdata a; key] st' = ([LBoolean true], st')) ∧
  (∀ s : string,
     isAttributeString (attribute_of_key key) = true →
     let st' := (call luaItemSetAttribute [LUserdata a; key; LString s] st).2 in
     call luaItemGetAttribute [LUserdata a; key] st' = ([LString s], st') ∧
     call luaItemHasAttribute [LUserdata a; key] st' = ([LBoolean true], st')).
Proof.
  intros Hu Hp. split.
  - intros v Hk Hv st'. subst st'.
    rewrite (luaItemSetAttribute_plain _ _ _ _ _ _ Hu Hp Hk). simpl.
    rewrite (luaItemGetAttribute_run (set_game _ st) _ _ _ _ Hu Hp),
      (luaItemHasAttribute_run (set_game _ st) _ _ _ _ Hu Hp).
    simpl. rewrite decide_True by done.
    unfold Item_getAttribute, Item_hasAttribute. simpl. rewrite lookup_insert_eq.
    unfold num at 1. rewrite static_cast_num by done.
    rewrite integral_cast_in_range by done.
    split; [|by rewrite bool_decide_true by eauto].
    by destruct (attribute_of_key key).
  - intros s Hk st'. subst st'.
    rewrite (luaItemSetAttribute_string _ _ _ _ _ _ Hu Hp Hk). simpl.
    rewrite (luaItemGetAttribute_run (set_game _ st) _ _ _ _ Hu Hp),
      (luaItemHasAttribute_run (set_game _ st) _ _ _ _ Hu Hp).
    simpl. rewrite decide_True by done.
    unfold Item_getAttribute_string, Item_hasAttribute. simpl. rewrite lookup_insert_eq.
    split; [|by rewrite bool_decide_true by eauto].
    by destruct (attribute_of_key key).
Qed.

(** X3. Removing an attribute under any key but the two protected ones
    answers true, whether or not the item had the attribute, and sends no
    tile-flag update; hasAttribute then answers false under that key, and
    what hasAttribute and (the duration apart) getAttribute answer under a
    key of another attribute is as before. *)
Theorem removed_attribute_is_absent
    (st : State) (a : nat) (u : Userdata) (item : nat) (key : lua_value) :
  udata st !! a = Some u →
  ptr u = Some item →
  attribute_of_key key ≠ UNIQUEID →
  attribute_of_key key ≠ DURATION_TIMESTAMP →
  let r := call luaItemRemoveAttribute [LUserdata a; key] st in
  r.1 = [LBoolean true] ∧
  notifications (game r.2) = notifications (game st) ∧
  call luaItemHasAttribute [LUserdata a; key] r.2 = ([LBoolean false], r.2) ∧
  (∀ key' : lua_value,
     attribute_of_key key' ≠ attribute_of_key key →
     (call luaItemHasAttribute [LUserdata a; key'] r.2).1
     = (call luaItemHasAttribute [LUserdata a; key'] st).1 ∧
     (attribute_of_key key' ≠ DURATION →
      (call luaItemGetAttribute [LUserdata a; key'] r.2).1
      = (call luaItemGetAttribute [LUserdata a; key'] st).1)).
Proof.
  intros Hu Hp Huid Hts r.
  assert (Hr : r = ([LBoolean true],
             set_game (Game_updateItem item (Item_removeAttribute (attribute_of_key key))
                         (game st)) st)).
  { subst r. unfold luaItemRemoveAttribute. exec. resolve_handle Hu Hp.
    rewrite (attributeArg_run _ _ key) by done.
    rewrite !bool_decide_true by done. exec. by destruct st. }
  rewrite Hr. clear Hr r. simpl. split; [done|]. split; [done|]. split.
  - rewrite (luaItemHasAttribute_run (set_game _ st) _ _ _ _ Hu Hp). simpl.
    rewrite decide_True by done. unfold Item_hasAttribute. simpl.
    rewrite lookup_delete_eq. by rewrite bool_decide_false by (by intros [? ?]).
  - intros key' Hne.
    rewrite (luaItemHasAttribute_run (set_game _ st) _ _ _ _ Hu Hp),
      (luaItemHasAttribute_run st _ _ _ _ Hu Hp),
      (luaItemGetAttribute_run (set_game _ st) _ _ _ _ Hu Hp),
      (luaItemGetAttribute_run st _ _ _ _ Hu Hp).
    simpl. rewrite decide_True by done.
    unfold Item_hasAttribute, Item_getAttribute, Item_getAttribute_string. simpl.
    rewrite lookup_delete_ne by done. split; [done|]. intros Hd.
    by rewrite (bool_decide_false _ Hd).
Qed.

(** X4. setActionId and setAttribute under the action-id key store the same
    attribute, and getActionId and getAttribute read it back; setAttribute
    sends the tile-flag update of the item, setActionId sends nothing. *)
Theorem action_id_two_writers
    (st : State) (a : nat) (u : Userdata) (item : nat) (key : lua_value) (n : Z) :
  udata st !! a = Some u →
  ptr u = Some item →
  attribute_of_key key = ACTIONID →
  in_range uint16_t n = true →
  let stored :=
    Game_updateItem item (Item_setAttribute ACTIONID (IntegerValue n)) (game st) in
  call luaItemSetActionId [LUserdata a; num n] st = ([LBoolean true], set_game stored st) ∧
  call luaItemSetAttribute [LUserdata a; key; num n] st
  = ([LBoolean true], set_game (Game_notify (TileFlagsUpdated item) stored) st) ∧
  notifications stored = notifications (game st) ∧
  call luaItemGetActionId [LUserdata a] (set_game stored st) = ([num n], set_game stored st) ∧
  call luaItemGetAttribute [LUserdata a; key] (set_game stored st)
  = ([num n], set_game stored st).
Proof.
  intros Hu Hp Hk Hn stored.
  assert (Hn64 : in_range int64_t n = true).
  { unfold in_range in *. apply andb_true_iff in Hn as [Hlo Hhi].
    apply Z.leb_le in Hlo, Hhi. simpl in *. apply andb_true_iff. split; apply Z.leb_le; simpl; lia. }
  split; [|split; [|split; [done|split]]].
  - unfold luaItemSetActionId, num. exec. resolve_handle Hu Hp.
    rewrite static_cast_num by done. by destruct st.
  - rewrite (luaItemSetAttribute_plain _ _ _ _ _ _ Hu Hp) by (by rewrite Hk).
    unfold num at 1. simpl. rewrite static_cast_num by done. by rewrite Hk.
  - unfold luaItemGetActionId. exec. resolve_handle Hu Hp.
    rewrite decide_True by done. unfold Item_getAttribute. simpl. rewrite lookup_insert_eq.
    rewrite integral_cast_in_range by done. by destruct st.
  - rewrite (luaItemGetAttribute_run (set_game _ st) _ _ _ _ Hu Hp). simpl.
    rewrite Hk. simpl. rewrite decide_True by done.
    unfold Item_getAttribute. simpl. rewrite lookup_insert_eq.
    by rewrite integral_cast_in_range by done.
Qed.

(** X5. A key that names no attribute: setAttribute and getAttribute answer
    nil and change nothing. *)
Theorem typed_attribute_unknown_key
    (st : State) (a : nat) (u : Userdata) (item : nat) (key value : lua_value) :
  udata st !! a = Some u →
  ptr u = Some item →
  attribute_of_key key = NONE →
  call luaItemSetAttribute [LUserdata a; key; value] st = ([LNil], st) ∧
  call luaItemGetAttribute [LUserdata a; key] st = ([LNil], st).
Proof.
  intros Hu Hp Hk. split.
  - unfold luaItemSetAttribute. exec. resolve_handle Hu Hp.
    rewrite (attributeArg_run _ _ key) by done. rewrite Hk. exec. by destruct st.
  - rewrite (luaItemGetAttribute_run _ _ _ _ _ Hu Hp). simpl. by rewrite Hk.
Qed.

(** ** Unique ids *)

Lemma addThing_tempItems (env : ScriptEnvironment) (item : nat) :
  tempItems (ScriptEnvironment_addThing item env).2 = tempItems env.
Proof.
  unfold ScriptEnvironment_addThing. by destruct (handle_of (localMap env) item).
Qed.

(** X6. getUniqueId answers the unique-id attribute of the item when it is
    not zero, and changes nothing.  When it is zero, the item is given a
    handle of the running environment: the answer is that handle, the game
    is as before, a second call answers the same handle and changes
    nothing more, and the item constructor on that number yields a userdata
    that holds the very item. *)
Theorem unique_id_resolves
    (st : State) (a : nat) (u : Userdata) (item : nat) (self : lua_value) :
  udata st !! a = Some u →
  ptr u = Some item →
  let it := items (game st) item in
  let r := call luaItemGetUniqueId [LUserdata a] st in
  (Item_getAttribute uint16_t UNIQUEID it ≠ 0 →
   r = ([num (Item_getAttribute uint16_t UNIQUEID it)], st)) ∧
  (Item_getAttribute uint16_t UNIQUEID it = 0 →
   let uid := (ScriptEnvironment_addThing item (getScriptEnv st)).1 in
   r.1 = [num uid] ∧
   game r.2 = game st ∧
   ScriptEnvironment_getItemByUID uid (getScriptEnv r.2) = Some item ∧
   call luaItemGetUniqueId [LUserdata a] r.2 = ([num uid], r.2) ∧
   (in_range uint32_t uid = true →
    ∃ st',
      call luaItemCreate [self; num uid] r.2 = ([LUserdata (length (udata st))], st') ∧
      udata st' !! length (udata st)
      = Some (mkUserdata (Some item) (Some (itemMetatable (game st) item))))).
Proof.
  intros Hu Hp it r. split.
  - intros Hnz. subst r. unfold luaItemGetUniqueId. exec. resolve_handle Hu Hp.
    fold it. rewrite (proj2 (Z.eqb_neq _ _) Hnz). exec. by destruct st.
  - intros Hz uid.
    pose proof (addThing_registered (getScriptEnv st) item) as Hreg. fold uid in Hreg.
    destruct (ScriptEnvironment_addThing item (getScriptEnv st)) as [uid' env1] eqn:Hadd.
    simpl in uid, Hreg. subst uid.
    assert (Hr : r = ([num uid'], setScriptEnv env1 st)).
    { subst r. unfold luaItemGetUniqueId. exec. resolve_handle Hu Hp.
      fold it. rewrite Hz. simpl. unfold env_addThing. simpl.
      replace (getScriptEnv (set_stack [LUserdata a] st)) with (getScriptEnv st) by done.
      rewrite Hadd. exec. by destruct st. }
    rewrite Hr. clear Hr r. simpl.
    split; [done|]. split; [done|]. split; [by apply handle_of_lookup|]. split.
    + unfold luaItemGetUniqueId. exec. resolve_handle Hu Hp.
      fold it. rewrite Hz. simpl. unfold env_addThing. simpl.
      unfold getScriptEnv at 1. simpl.
      rewrite (addThing_captures _ _ _ Hreg). exec. by destruct st.
    + intros Hrange. eexists. unfold luaItemCreate, num. exec.
      rewrite static_cast_num by done.
      unfold ScriptEnvironment_getItemByUID, getScriptEnv. simpl.
      rewrite (handle_of_lookup _ _ _ Hreg).
      unfold pushUserdata, setItemMetatable, setMetatable. exec.
      split; [reflexivity|]. simpl.
      rewrite list_lookup_alter_eq. by rewrite lookup_app_r, Nat.sub_diag by done.
Qed.

(** ** Custom attributes, removed and refused *)

Lemma luaItemRemoveCustomAttribute_run
    (st : State) (a : nat) (u : Userdata) (item : nat) (key : lua_value) (k : string) :
  udata st !! a = Some u →
  ptr u = Some item →
  custom_key key = Some k →
  call luaItemRemoveCustomAttribute [LUserdata a; key] st
  = ([LBoolean (bool_decide (is_Some (customAttributeMap (items (game st) item) !! k)))],
     set_game (Game_updateItem item (Item_eraseCustomAttribute k) (game st)) st).
Proof.
  intros Hu Hp Hk. unfold luaItemRemoveCustomAttribute, removeCustomAttribute.
  exec. resolve_handle Hu Hp.
  destruct key; simplify_eq/=; by destruct st.
Qed.

(** X7. A custom attribute that has been stored is removed by
    removeCustomAttribute under the same key, which answers true;
    getCustomAttribute then answers nil under that key, a second removal
    answers false, and what is read under any other key is what was read
    before the attribute was stored. *)
Theorem custom_attribute_set_remove
    (st : State) (a : nat) (u : Userdata) (item : nat) (key value : lua_value)
    (k : string) (c : CustomAttribute) :
  udata st !! a = Some u →
  ptr u = Some item →
  custom_key key = Some k →
  custom_value value = Some c →
  let st1 := (call luaItemSetCustomAttribute [LUserdata a; key; value] st).2 in
  let r := call luaItemRemoveCustomAttribute [LUserdata a; key] st1 in
  r.1 = [LBoolean true] ∧
  call luaItemGetCustomAttribute [LUserdata a; key] r.2 = ([LNil], r.2) ∧
  (call luaItemRemoveCustomAttribute [LUserdata a; key] r.2).1 = [LBoolean false] ∧
  (∀ (key' : lua_value) (k' : string),
     custom_key key' = Some k' → k' ≠ k →
     (call luaItemGetCustomAttribute [LUserdata a; key'] r.2).1
     = (call luaItemGetCustomAttribute [LUserdata a; key'] st).1).
Proof.
  intros Hu Hp Hk Hc st1 r. subst r st1.
  rewrite (luaItemSetCustomAttribute_run _ _ _ _ _ _ _ Hu Hp Hk), Hc. simpl.
  rewrite (luaItemRemoveCustomAttribute_run (set_game _ st) _ _ _ _ _ Hu Hp Hk). simpl.
  rewrite !decide_True by done. simpl. rewrite lookup_insert_eq.
  split; [by rewrite bool_decide_true by eauto|]. split; [|split].
  - rewrite (luaItemGetCustomAttribute_run (set_game _ (set_game _ st)) _ _ _ _ _ Hu Hp Hk).
    simpl. rewrite !decide_True by done. unfold Item_getCustomAttribute. simpl.
    by rewrite lookup_delete_eq.
  - rewrite (luaItemRemoveCustomAttribute_run (set_game _ (set_game _ st)) _ _ _ _ _ Hu Hp Hk).
    simpl. rewrite !decide_True by done. simpl. rewrite lookup_delete_eq.
    by rewrite bool_decide_false by (by intros [? ?]).
  - intros key' k' Hk' Hne.
    rewrite (luaItemGetCustomAttribute_run (set_game _ (set_game _ st)) _ _ _ _ _ Hu Hp Hk'),
      (luaItemGetCustomAttribute_run st _ _ _ _ _ Hu Hp Hk').
    simpl. rewrite !decide_True by done. unfold Item_getCustomAttribute. simpl.
    by rewrite lookup_delete_ne, lookup_insert_ne by done.
Qed.

(** X8. A custom-attribute binding given a key that is neither a number nor
    a string answers nil and changes nothing, and so does setCustomAttribute
    given a value that is neither a number, a string nor a boolean, whatever
    the key. *)
Theorem custom_attribute_invalid_argument
    (st : State) (self key value : lua_value) :
  (custom_key key = None →
   call luaItemSetCustomAttribute [self; key; value] st = ([LNil], st) ∧
   call luaItemGetCustomAttribute [self; key] st = ([LNil], st) ∧
   call luaItemRemoveCustomAttribute [self; key] st = ([LNil], st)) ∧
  (custom_value value = None →
   call luaItemSetCustomAttribute [self; key; value] st = ([LNil], st)).
Proof.
  split.
  - intros Hk.
    unfold luaItemSetCustomAttribute, luaItemGetCustomAttribute, luaItemRemoveCustomAttribute.
    destruct self; exec; try (by destruct st).
    all: case_decide; simpl; try (by destruct st).
    all: destruct (udata st !! addr ≫= ptr); simpl; try (by destruct st).
    all: destruct key; simplify_eq/=; by destruct st.
  - intros Hv. unfold luaItemSetCustomAttribute.
    destruct self; exec; try (by destruct st).
    case_decide; simpl; [|by destruct st].
    destruct (udata st !! addr ≫= ptr); simpl; [|by destruct st].
    destruct key; simpl; try (by destruct st);
      destruct value; simplify_eq/=; by destruct st.
Qed.

(** X9. A numeric key is converted to a 64-bit integer before it is
    rendered: a number with a fractional part addresses the custom attribute
    of its integral part, in each of the three custom-attribute bindings. *)
Theorem custom_attribute_fractional_key
    (st : State) (self value : lua_value) (q : Q) :
  in_range int64_t (Qtruncate q) = true →
  call luaItemSetCustomAttribute [self; LNumber (Finite q); value] st
  = call luaItemSetCustomAttribute [self; num (Qtruncate q); value] st ∧
  call luaItemGetCustomAttribute [self; LNumber (Finite q)] st
  = call luaItemGetCustomAttribute [self; num (Qtruncate q)] st ∧
  call luaItemRemoveCustomAttribute [self; LNumber (Finite q)] st
  = call luaItemRemoveCustomAttribute [self; num (Qtruncate q)] st.
Proof.
  intros Hq.
  assert (Hcast : static_cast int64_t (Finite q) = Qtruncate q).
  { unfold static_cast. by rewrite Hq. }
  unfold luaItemSetCustomAttribute, luaItemGetCustomAttribute, luaItemRemoveCustomAttribute,
    removeCustomAttribute, num.
  split; [|split].
  all: destruct self; exec; try done.
  all: case_decide; simpl; [|done].
  all: destruct (udata st !! addr ≫= ptr); simpl; [|done].
  all: rewrite Hcast, static_cast_num by done; try done.
  - by destruct value as [| |x| | |]; simpl; try destruct (number_ltb (std_floor x) x).
  - by destruct (Item_getCustomAttribute _ _).
Qed.

(** ** Split and clone *)

(** X10. A split of a live stackable item hands the script one new userdata,
    which holds the split-off item under the metatable of its class.  The
    split-off item carries [count], the requested count capped by the count
    of the stack, the original is transformed to the remaining
    [item_count - count], which is not negative, and the split-off item ends
    up on the virtual cylinder and among the temporary items of the running
    environment. *)
Theorem split_off_stack_detached
    (st : State) (a : nat) (u : Userdata) (item : nat) (requested : option Z)
    (splitItem : nat) (g1 : Game) :
  udata st !! a = Some u →
  ptr u = Some item →
  let it := items (game st) item in
  Item_isStackable it = true →
  Item_isRemoved (game st) item = false →
  Item_clone item (game st) = (Some splitItem, g1) →
  (∀ n, requested = Some n → in_range uint16_t n = true) →
  in_range uint16_t (item_count it) = true →
  let count := Z.min (default 1 requested) (item_count it) in
  let g2 := Game_updateItem splitItem (Item_setItemCount count) g1 in
  let r := call luaItemSplit (LUserdata a :: optional_arg requested) st in
  0 ≤ count ≤ item_count it ∧
  r.1 = [LUserdata (length (udata st))] ∧
  udata r.2 !! length (udata st)
  = Some (mkUserdata (Some splitItem) (Some (itemMetatable (game r.2) splitItem))) ∧
  game r.2
  = Game_updateItem splitItem (Item_setParent VirtualCylinder)
      (Game_transformItem item (item_id (items g2 item)) (item_count it - count) g2).2 ∧
  parent (items (game r.2) splitItem) = VirtualCylinder ∧
  tempItems (getScriptEnv r.2) = tempItems (getScriptEnv st) ++ [splitItem].
Proof.
  intros Hu Hp it Hstack Hlive Hclone Hreq Hcount count g2 r.
  assert (Ha : (a < length (udata st))%nat) by (eapply lookup_lt_Some; exact Hu).
  assert (Hbounds : 0 ≤ count ≤ item_count it).
  { subst count. unfold in_range in Hcount. apply andb_true_iff in Hcount as [Hlo Hhi].
    apply Z.leb_le in Hlo, Hhi. simpl in Hlo, Hhi.
    destruct requested as [n|]; simpl; [|lia].
    specialize (Hreq n eq_refl). unfold in_range in Hreq.
    apply andb_true_iff in Hreq as [Hnlo _]. apply Z.leb_le in Hnlo. simpl in Hnlo. lia. }
  assert (Hdiff : (item_count it - count) `mod` 2 ^ 16 = item_count it - count).
  { unfold in_range in Hcount. apply andb_true_iff in Hcount as [Hlo Hhi].
    apply Z.leb_le in Hlo, Hhi. simpl in Hlo, Hhi. apply Z.mod_small. lia. }
  split; [done|].
  pose proof (addThing_tempItems (getScriptEnv st) item) as Htemp.
  subst r g2 count.
  destruct requested as [n|]; unfold luaItemSplit, num; exec; resolve_handle Hu Hp;
    fold it; rewrite Hstack, Hlive; simpl;
    rewrite ?static_cast_num by eauto;
    unfold withGame; simpl; rewrite Hclone; simpl;
    unfold env_addThing, ScriptEnvironment_getItemByUID, getScriptEnv, setScriptEnv in *; simpl.
  all: simpl in Hdiff; rewrite Hdiff.
  all: destruct (ScriptEnvironment_addThing item _) as [uid env1]; simpl in *.
  all: destruct (Game_transformItem _ _ _ _) as [newItem g3]; simpl.
  all: unfold onScriptEnv, pushUserdata, setItemMetatable, setMetatable, modify, gets, bind,
    getScriptEnv, setScriptEnv, ret.
  all: destruct (Item_isRemoved g3 item); simpl.
  all: destruct newItem as [new|]; simpl; try case_bool_decide; simpl.
  all: rewrite ?last_snoc, ?length_alter; simpl.
  all: rewrite list_lookup_alter_eq, lookup_app_r by (by rewrite length_alter).
  all: rewrite length_alter, Nat.sub_diag, decide_True by done; simpl.
  all: by rewrite Htemp.
Qed.

(** X11. A split of an item that is not stackable or is removed answers nil
    and changes nothing, whatever the other arguments; a split whose clone
    fails answers nil and leaves the userdata and the environments as they
    were; a transform to a name that no item template bears answers nil and
    changes nothing. *)
Theorem split_transform_refused
    (st : State) (a : nat) (u : Userdata) (item : nat) :
  udata st !! a = Some u →
  ptr u = Some item →
  let it := items (game st) item in
  (∀ args : list lua_value,
     Item_isStackable it = false ∨ Item_isRemoved (game st) item = true →
     call luaItemSplit (LUserdata a :: args) st = ([LNil], st)) ∧
  (∀ (args : list lua_value) (g1 : Game),
     Item_isStackable it = true →
     Item_isRemoved (game st) item = false →
     Item_clone item (game st) = (None, g1) →
     call luaItemSplit (LUserdata a :: args) st = ([LNil], set_game g1 st)) ∧
  (∀ (name : lua_value) (args : list lua_value),
     (∀ n, name ≠ LNumber n) →
     Items_getItemIdByName (lua_tostring name) = 0 →
     call luaItemTransform (LUserdata a :: name :: args) st = ([LNil], st)).
Proof.
  intros Hu Hp it. split; [|split].
  - intros args Hrefused. unfold luaItemSplit. exec. resolve_handle Hu Hp. fold it.
    assert (Hor : negb (Item_isStackable it) || Item_isRemoved (game st) item = true).
    { destruct Hrefused as [-> | ->]; [done|by rewrite orb_true_r]. }
    rewrite Hor. exec. rewrite drop_last_cons. by destruct st.
  - intros args g1 Hstack Hlive Hclone. unfold luaItemSplit. exec. resolve_handle Hu Hp.
    fold it. rewrite Hstack, Hlive. simpl. case_decide; simpl.
    all: unfold withGame; simpl; rewrite Hclone; simpl.
    all: rewrite drop_last_cons; by destruct st.
  - intros name args Hname Hid. unfold luaItemTransform. exec. resolve_handle Hu Hp.
    destruct name; try (by exfalso; eapply Hname); simpl in *; rewrite Hid; simpl.
    all: rewrite <- (Nat.sub_0_r (length (args ++ [LNil]))), drop_last_cons; by destruct st.
Qed.


(** X13. A clone hands the script one new userdata, which holds the clone
    under the metatable of its class; the clone is on the virtual cylinder
    and among the temporary items of the running environment, and no handle
    is allocated: the handle map is as before.  When the item cannot be
    cloned the script receives nil and the userdata and the environments
    are as before. *)
Theorem clone_is_detached_temporary
    (st : State) (a : nat) (u : Userdata) (item : nat) (cloned : option nat) (g1 : Game) :
  udata st !! a = Some u →
  ptr u = Some item →
  Item_clone item (game st) = (cloned, g1) →
  let r := call luaItemClone [LUserdata a] st in
  match cloned with
  | Some clone =>
      r.1 = [LUserdata (length (udata st))] ∧
      udata r.2
      = udata st ++ [mkUserdata (Some clone) (Some (itemMetatable (game r.2) clone))] ∧
      game r.2 = Game_updateItem clone (Item_setParent VirtualCylinder) g1 ∧
      parent (items (game r.2) clone) = VirtualCylinder ∧
      tempItems (getScriptEnv r.2) = tempItems (getScriptEnv st) ++ [clone] ∧
      localMap (getScriptEnv r.2) = localMap (getScriptEnv st)
  | None => r = ([LNil], set_game g1 st)
  end.
Proof.
  intros Hu Hp Hclone r. subst r.
  unfold luaItemClone. exec. resolve_handle Hu Hp.
  unfold withGame. simpl. rewrite Hclone.
  destruct cloned as [clone|]; simpl; [|by destruct st].
  unfold onScriptEnv, pushUserdata, setItemMetatable, setMetatable, modify, gets, bind,
    getScriptEnv, setScriptEnv, ret. simpl.
  rewrite decide_True by done.
  assert (Halter : ∀ (f : Userdata → Userdata) (l : list Userdata) (x : Userdata),
            alter f (length l) (l ++ [x]) = l ++ [f x]).
  { intros f l x. induction l as [|y l IH]; simpl; [done|]. by f_equal. }
  by rewrite Halter.
Qed.

(** ** Monsters, continued *)

(** X14. Given a second argument, whatever it is, each of the five hazard
    bindings is a setter: the flag becomes the truth value Lua gives the
    argument (false for nil and false, true for any other value) and that
    value is returned.  With the monster alone, hazard returns the stored
    flag and changes nothing. *)
Theorem hazard_setter_truth_value
    (st : State) (a : nat) (u : Userdata) (monster : nat) (v : lua_value) :
  udata st !! a = Some u →
  ptr u = Some monster →
  call luaMonsterHazard [LUserdata a; v] st
  = ([LBoolean (lua_toboolean v)],
     set_game (Game_updateMonster monster (Monster_setHazard (lua_toboolean v)) (game st)) st) ∧
  call luaMonsterHazard [LUserdata a] st
  = ([LBoolean (hazard (monsters (game st) monster))], st) ∧
  (∀ md : HazardModifier,
     call (hazard_binding md) [LUserdata a; v] st
     = ([LBoolean (lua_toboolean v)],
        set_game (Game_updateMonster monster (hazard_setter md (lua_toboolean v)) (game st)) st)) ∧
  lua_toboolean LNil = false ∧
  (v ≠ LNil → v ≠ LBoolean false → lua_toboolean v = true).
Proof.
  intros Hu Hp. split; [|split; [|split; [|split]]].
  - unfold luaMonsterHazard. exec. resolve_handle Hu Hp.
    rewrite !decide_True by done. by destruct st.
  - unfold luaMonsterHazard. exec. resolve_handle Hu Hp. by destruct st.
  - intros md.
    destruct md; unfold hazard_binding, luaMonsterHazardCrit, luaMonsterHazardDodge,
      luaMonsterHazardDamageBoost, luaMonsterHazardDefenseBoost; exec;
      resolve_handle Hu Hp; rewrite !decide_True by done; by destruct st.
  - done.
  - intros Hnil Hfalse. by destruct v as [|[]| | | |].
Qed.

(** X15. On a live monster setForgeStack pushes no result and returns one:
    the script receives its own last argument, the stack number it passed,
    or the monster itself when it passed none (the stack is then set to
    0). *)
Theorem setForgeStack_returns_its_argument
    (st : State) (a : nat) (u : Userdata) (monster : nat) (v : lua_value) :
  udata st !! a = Some u →
  ptr u = Some monster →
  (call luaMonsterSetForgeStack [LUserdata a; v] st).1 = [v] ∧
  (call luaMonsterSetForgeStack [LUserdata a] st).1 = [LUserdata a] ∧
  forgeStack (monsters (game (call luaMonsterSetForgeStack [LUserdata a] st).2) monster) = 0.
Proof.
  intros Hu Hp. unfold luaMonsterSetForgeStack. exec. resolve_handle Hu Hp.
  by rewrite !decide_True by done.
Qed.

Lemma integral_cast_uint32 (z : Z) : integral_cast uint32_t z = z `mod` 2 ^ 32.
Proof. unfold integral_cast. simpl. by rewrite Z.sub_0_r, Z.add_0_r. Qed.

(** X16. setSpawnPosition sets the master position of the monster, adds a
    spawn record of radius 5 at its position and starts it, with the
    interval [seconds * 1000 * 100 / max(1, rate)] computed on 32-bit
    unsigned numbers, 90 seconds when none is given: the divisor is never
    zero, the interval is a 32-bit number not above [seconds * 100000], and
    up to 42949 seconds the product does not wrap. *)
Theorem spawn_interval_of_seconds
    (st : State) (a : nat) (u : Userdata) (monster : nat) (seconds : option Z) :
  udata st !! a = Some u →
  ptr u = Some monster →
  (∀ n, seconds = Some n → in_range uint32_t n = true) →
  let n := default 90 seconds in
  let rate :=
    integral_cast uint32_t (RATE_SPAWN * integral_cast uint32_t getSpawnMonsterSchedule) in
  let interval := ((n * 100000) `mod` 2 ^ 32) `div` Z.max 1 rate in
  let g1 := Monster_setMasterPos monster (Monster_getPosition (game st) monster) (game st) in
  let sp := spawnMonsterList_emplace_back (Monster_getPosition g1 monster) 5 g1 in
  call luaMonsterSetSpawnPosition (LUserdata a :: optional_arg seconds) st
  = ([LBoolean true],
     set_game
       (SpawnMonster_startSpawnMonsterCheck sp.1
          (SpawnMonster_addMonster sp.1 (Monster_typeName sp.2 monster)
             (Monster_getPosition sp.2 monster) DIRECTION_NORTH interval sp.2))
       st) ∧
  1 ≤ Z.max 1 rate ∧
  0 ≤ interval < 2 ^ 32 ∧
  interval ≤ n * 100000 ∧
  (n ≤ 42949 → interval = (n * 100000) `div` Z.max 1 rate).
Proof.
  intros Hu Hp Hsec n rate interval g1 sp.
  assert (Hn : 0 ≤ n < 2 ^ 32).
  { subst n. destruct seconds as [k|]; simpl; [|lia].
    specialize (Hsec k eq_refl). unfold in_range in Hsec.
    apply andb_true_iff in Hsec as [Hlo Hhi]. apply Z.leb_le in Hlo, Hhi. simpl in *. lia. }
  assert (Hprod : integral_cast uint32_t (integral_cast uint32_t (n * 1000) * 100)
                  = (n * 100000) `mod` 2 ^ 32).
  { rewrite !integral_cast_uint32, Z.mul_mod_idemp_l by lia. f_equal. lia. }
  pose proof (Z.mod_pos_bound (n * 100000) (2 ^ 32) ltac:(lia)) as Hmod.
  assert (Hle : (n * 100000) `mod` 2 ^ 32 ≤ n * 100000) by (apply Z.mod_le; lia).
  assert (Hdiv : interval ≤ (n * 100000) `mod` 2 ^ 32).
  { subst interval. apply Z.div_le_upper_bound; [lia|]. nia. }
  split; [|split; [lia|split; [|split; [lia|]]]].
  - subst interval sp g1.
    destruct seconds as [k|]; unfold luaMonsterSetSpawnPosition, num; exec;
      resolve_handle Hu Hp; unfold withGame; simpl.
    all: destruct (spawnMonsterList_emplace_back _ _ _) as [spawnMonster g2]; simpl.
    all: rewrite ?static_cast_num by eauto.
    all: subst n rate; simpl in Hprod; rewrite Hprod; by destruct st.
  - split; [|lia]. subst interval. apply Z.div_pos; lia.
  - intros Hsmall. subst interval. rewrite Z.mod_small; [done|].
    change (2 ^ 32) with 4294967296. lia.
Qed.

(** ** Vocations, continued *)

(** X17. getDemotion and getPromotion never hand a vocation itself back:
    each answers nil and changes nothing, or answers one new userdata with
    the metatable of vocations that holds another vocation; the game and
    the environments are as before in both cases. *)
Theorem vocation_ladder_never_self
    (st : State) (a : nat) (u : Userdata) (vocation : nat) (f : M nat) :
  udata st !! a = Some u →
  ptr u = Some vocation →
  f = luaVocationGetDemotion ∨ f = luaVocationGetPromotion →
  let r := call f [LUserdata a] st in
  r = ([LNil], st) ∨
  ∃ other : nat,
    other ≠ vocation ∧
    r = ([LUserdata (length (udata st))],
         set_udata (udata st ++ [mkUserdata (Some other) (Some "Vocation")]) st).
Proof.
  intros Hu Hp Hf r. subst r.
  assert (Halter : ∀ (g : Userdata → Userdata) (l : list Userdata) (x : Userdata),
            alter g (length l) (l ++ [x]) = l ++ [g x]).
  { intros g l x. induction l as [|y l IH]; simpl; [done|]. by f_equal. }
  destruct Hf as [-> | ->]; unfold luaVocationGetDemotion, luaVocationGetPromotion;
    exec; resolve_handle Hu Hp.
  all: destruct (_ =? VOCATION_NONE); simpl; [left; by destruct st|].
  all: destruct (Vocations_getVocation _ _) as [other|]; simpl; [|left; by destruct st].
  all: case_bool_decide; simpl; [|left; by destruct st].
  all: right; exists other; split; [done|].
  all: unfold pushUserdata, setMetatable, modify, bind, ret; simpl.
  all: rewrite Halter; by destruct st.
Qed.

(** ** Callbacks *)

(** X18. Entering a script below the maximum nesting depth succeeds, whether
    or not the target creature is still alive: one environment is reserved
    on top of the enclosing ones, which are untouched, it carries the script
    id, the function is pushed, the Lua state is attached and the parameter
    count is kept; leaving gives back the environments as they were.  With
    the script id -1 the entry fails at once and nothing changes, at any
    depth. *)
Theorem startScriptInterface_enters
    (scriptId : Z) (cb : CreatureCallback) (st : State) :
  scriptId ≠ -1 →
  (length (envs st) < scriptEnvMax)%nat →
  (∃ st',
     startScriptInterface scriptId cb st
     = Some (true, mkCreatureCallback (m_targetCreature cb) true (params cb), st') ∧
     envs st' = ScriptEnvironment_setScriptId scriptId emptyScriptEnvironment :: envs st ∧
     stack st' = stack st ++ [LFunction scriptId] ∧
     game st' = game st ∧
     logger st' = logger st ∧
     envs (resetScriptEnv st').2 = envs st) ∧
  (∀ st0 : State, startScriptInterface (-1) cb st0 = Some (false, cb, st0)).
Proof.
  intros Hid Hdepth. split; [|done].
  eexists. unfold startScriptInterface, reserveScriptEnv.
  rewrite decide_False by done. rewrite decide_True by done. simpl.
  split; [reflexivity|]. done.
Qed.

(** X19. At the maximum nesting depth, the entry of a script for a callback
    whose target creature has expired reads the name of the creature through
    a null pointer: the function has no result. *)
Theorem startScriptInterface_expired_target
    (scriptId : Z) (cb : CreatureCallback) (st : State) :
  scriptId ≠ -1 →
  (scriptEnvMax ≤ length (envs st))%nat →
  m_targetCreature cb = None →
  startScriptInterface scriptId cb st = None.
Proof.
  intros Hid Hdepth Htarget. unfold startScriptInterface, reserveScriptEnv.
  rewrite decide_False by done. rewrite decide_False by lia. simpl.
  by rewrite Htarget.
Qed.

(** X20. Pushing creatures one after the other leaves, on top of the stack,
    one userdata for each, in order; the userdata of a creature holds it
    under the metatable of its class (Npc, Monster or Player); the parameter
    count of the callback has grown by the number of creatures pushed, and
    nothing else has changed. *)
Theorem pushCreatures_counts_parameters
    (creatures : list (nat * Creature)) (cb : CreatureCallback) (st : State) :
  pushCreatures creatures cb st
  = (mkCreatureCallback (m_targetCreature cb) (L_attached cb)
       (params cb + length creatures),
     set_stack
       (stack st ++ imap (λ i _, LUserdata (length (udata st) + i)) creatures)
       (set_udata
          (udata st ++
           ((λ rc : nat * Creature, mkUserdata (Some rc.1) (Some (variant_name rc.2)))
            <$> creatures))
          st)).
Proof.
  revert cb st. induction creatures as [|[creature c] creatures IH]; intros cb st.
  - simpl. rewrite !app_nil_r, Nat.add_0_r. by destruct st, cb.
  - assert (Hpush : pushSpecificCreature creature c cb st
                    = (mkCreatureCallback (m_targetCreature cb) (L_attached cb) (S (params cb)),
                       set_stack (stack st ++ [LUserdata (length (udata st))])
                         (set_udata (udata st ++ [mkUserdata (Some creature) (Some (variant_name c))])
                            st))).
    { assert (Halter : ∀ (g : Userdata → Userdata) (l : list Userdata) (x : Userdata),
                alter g (length l) (l ++ [x]) = l ++ [g x]).
      { intros g l x. induction l as [|y l IHl]; simpl; [done|]. by f_equal. }
      unfold pushSpecificCreature, getCreatureClass, variant_name, getNpc, getMonster, getPlayer.
      destruct (variant c); unfold pushUserdata, setMetatable, modify, bind, ret; simpl;
        rewrite last_snoc; simpl; by rewrite Halter. }
    change (pushCreatures ((creature, c) :: creatures) cb st)
      with (let '(cb1, st1) := pushSpecificCreature creature c cb st in
            pushCreatures creatures cb1 st1).
    rewrite Hpush, IH. simpl. f_equal.
    + f_equal. lia.
    + unfold set_stack, set_udata. simpl. rewrite <- !app_assoc. simpl.
      rewrite Nat.add_0_r. f_equal.
      do 2 f_equal. apply imap_ext. intros i x _. simpl.
      rewrite length_app. simpl. f_equal. lia.
Qed.

(** ** The shared item templates *)

(** X21. setDuration writes the template of the item's id, which every item
    of that id shares: with the duration alone the template's decay time
    becomes that duration, its decay target 0 and its duration display on;
    with all four arguments the decay time is the number drawn between the
    two durations, or the first duration when the draw is 0, and the decay
    target and the display are as given.  The templates of other ids are
    untouched, and the decay of the item is started with the template as
    written. *)
Theorem setDuration_writes_shared_template
    (w : World) (a : nat) (u : Userdata) (item : nat) (minDuration : Z) :
  udata (world_state w) !! a = Some u →
  ptr u = Some item →
  in_range uint32_t minDuration = true →
  let g := game (world_state w) in
  let id := item_id (items g item) in
  (let r := callW luaItemSetDuration [LUserdata a; num minDuration] w in
   r.1 = [LBoolean true] ∧
   itemTypes r.2 id = mkDecayTemplate 0 minDuration true ∧
   (∀ other : nat, item_id (items g other) = id →
      itemTypes r.2 (item_id (items g other)) = mkDecayTemplate 0 minDuration true) ∧
   (∀ id' : Z, id' ≠ id → itemTypes r.2 id' = itemTypes w id') ∧
   game (world_state r.2) = Item_startDecaying (itemTypes r.2) item g) ∧
  (∀ (maxDuration target : Z) (display : bool),
     in_range uint32_t maxDuration = true →
     in_range uint16_t target = true →
     let r := callW luaItemSetDuration
                [LUserdata a; num minDuration; num maxDuration; num target; LBoolean display] w in
     let draw := integral_cast uint32_t (uniform_random minDuration maxDuration) in
     r.1 = [LBoolean true] ∧
     itemTypes r.2 id
     = mkDecayTemplate target (if draw =? 0 then minDuration else draw) display ∧
     (∀ id' : Z, id' ≠ id → itemTypes r.2 id' = itemTypes w id') ∧
     game (world_state r.2) = Item_startDecaying (itemTypes r.2) item g).
Proof.
  intros Hu Hp Hmin g id. split.
  - unfold callW, luaItemSetDuration, liftW, bindW, retW, updateItemType, startDecaying, num.
    simpl. exec. resolve_handle Hu Hp. rewrite static_cast_num by done. simpl.
    fold g. fold id. rewrite !decide_True by done. simpl.
    split; [done|]. split; [done|]. split; [|split; [|done]].
    { intros other Ho. rewrite Ho. by rewrite !decide_True by done. }
    intros id' Hne. by rewrite !decide_False by done.
  - intros maxDuration target display Hmax Htarget.
    unfold callW, luaItemSetDuration, liftW, bindW, retW, updateItemType, startDecaying, num.
    simpl. exec. resolve_handle Hu Hp. rewrite !static_cast_num by done. simpl.
    fold g. fold id. rewrite !decide_True by done. simpl.
    split; [done|]. split; [by destruct display|]. split; [|done].
    intros id' Hne. by rewrite !decide_False by done.
Qed.

(** X22. decay with a decay target writes it into the template of the item's
    id, which every item of that id shares, and leaves the decay time and
    the display of the template and the templates of other ids as they
    were; decay without a number writes no template.  Both start the decay
    of the item and answer true. *)
Theorem decay_writes_shared_template
    (w : World) (a : nat) (u : Userdata) (item : nat) :
  udata (world_state w) !! a = Some u →
  ptr u = Some item →
  let g := game (world_state w) in
  let id := item_id (items g item) in
  (∀ decayId : Z,
     in_range int32_t decayId = true →
     let r := callW luaItemDecay [LUserdata a; num decayId] w in
     r.1 = [LBoolean true] ∧
     itemTypes r.2 id
     = mkDecayTemplate decayId (decayTime (itemTypes w id)) (showDuration (itemTypes w id)) ∧
     (∀ id' : Z, id' ≠ id → itemTypes r.2 id' = itemTypes w id') ∧
     game (world_state r.2) = Item_startDecaying (itemTypes r.2) item g) ∧
  (∀ v : lua_value,
     (∀ n, v ≠ LNumber n) →
     callW luaItemDecay [LUserdata a; v] w
     = ([LBoolean true],
        mkWorld (set_game (Item_startDecaying (itemTypes w) item g) (world_state w))
          (itemTypes w))).
Proof.
  intros Hu Hp g id. split.
  - intros decayId Hd.
    unfold callW, luaItemDecay, liftW, bindW, retW, updateItemType, startDecaying, num.
    simpl. exec. resolve_handle Hu Hp. rewrite static_cast_num by done. simpl.
    fold g. fold id. rewrite !decide_True by done.
    split; [done|]. split; [done|]. split; [|done].
    intros id' Hne. by rewrite !decide_False by done.
  - intros v Hv.
    unfold callW, luaItemDecay, liftW, bindW, retW, updateItemType, startDecaying.
    simpl. exec. resolve_handle Hu Hp.
    destruct v; try (by exfalso; eapply Hv); simpl; fold g; by destruct (world_state w).
Qed.

(** ** Owners *)

(** X23. The creature id 0 stands for no owner in the three owner bindings:
    setOwner given an argument that is no userdata and reads as 0 answers
    false and sets nothing, and isOwner answers false on it without asking
    the item; with a non-zero id setOwner sets the owner and answers true;
    getOwnerId answers nil, never the number 0, for an item whose owner id
    is 0, and the id otherwise. *)
Theorem owner_id_zero_is_no_owner
    (st : State) (a : nat) (u : Userdata) (item : nat) (v : lua_value) :
  udata st !! a = Some u →
  ptr u = Some item →
  (∀ b, v ≠ LUserdata b) →
  (creature_id v = 0 →
   call luaItemSetOwner [LUserdata a; v] st = ([LBoolean false], st) ∧
   call luaItemIsOwner [LUserdata a; v] st = ([LBoolean false], st)) ∧
  (creature_id v ≠ 0 →
   call luaItemSetOwner [LUserdata a; v] st
   = ([LBoolean true], set_game (Item_setOwner_id item (creature_id v) (game st)) st) ∧
   call luaItemIsOwner [LUserdata a; v] st
   = ([LBoolean (Item_isOwner_id (game st) item (creature_id v))], st)) ∧
  call luaItemGetOwnerId [LUserdata a] st
  = ([if Item_getOwnerId (game st) item =? 0 then LNil
      else num (Item_getOwnerId (game st) item)], st).
Proof.
  intros Hu Hp Hv. unfold creature_id. split; [|split].
  - intros Hz. unfold luaItemSetOwner, luaItemIsOwner, isUserdata. exec.
    resolve_handle Hu Hp.
    destruct v as [| | | |b|]; try (by destruct (Hv b)); simpl in *; try rewrite Hz; simpl;
      by destruct st.
  - intros Hnz. apply Z.eqb_neq in Hnz.
    unfold luaItemSetOwner, luaItemIsOwner, isUserdata. exec. resolve_handle Hu Hp.
    destruct v as [| | | |b|]; try (by destruct (Hv b)); simpl in *; try rewrite Hnz; simpl;
      by destruct st.
  - unfold luaItemGetOwnerId. exec. resolve_handle Hu Hp.
    destruct (Item_getOwnerId (game st) item =? 0); simpl; by destruct st.
Qed.

(** ** Moving an item *)

(** X24. moveTo answers nil and changes nothing when its second argument
    designates no cylinder, and true, changing nothing, when the cylinder is
    the one that holds the item already.  Otherwise it adds a detached item
    to the cylinder, or moves the item there; the userdata of the script
    then holds the item the move yielded, if it yielded one, and the
    original otherwise.  The environments are never touched: unlike split
    and transform, moveTo rebinds no handle. *)
Theorem moveTo_rebinds_userdata_only
    (st : State) (a : nat) (u : Userdata) (item : nat) (args : list lua_value) :
  udata st !! a = Some u →
  ptr u = Some item →
  Item_isRemoved (game st) item = false →
  let it := items (game st) item in
  let target := (moveTo_toCylinder (set_stack (LUserdata a :: args) st)).1 in
  let r := call luaItemMoveTo (LUserdata a :: args) st in
  envs r.2 = envs st ∧
  (target = None → r = ([LNil], st)) ∧
  (∀ toCylinder, target = Some toCylinder → parent it = Holder toCylinder →
     r = ([LBoolean true], st)) ∧
  (∀ toCylinder, target = Some toCylinder → parent it = VirtualCylinder →
     udata r.2 = udata st ∧
     ∃ flags,
       game r.2 = (Game_internalAddItem toCylinder item INDEX_WHEREEVER flags (game st)).2) ∧
  (∀ toCylinder, target = Some toCylinder →
     parent it ≠ Holder toCylinder → parent it ≠ VirtualCylinder →
     ∃ flags,
       let moved := Game_internalMoveItem (parent it) toCylinder INDEX_WHEREEVER item
                      (item_count it) flags (game st) in
       game r.2 = moved.2 ∧
       r.1 = [LBoolean (moved.1.1 =? RETURNVALUE_NOERROR)] ∧
       udata r.2 !! a ≫= ptr = Some (default item moved.1.2)).
Proof.
  intros Hu Hp Hlive it target r.
  assert (Ha : (a < length (udata st))%nat) by (eapply lookup_lt_Some; exact Hu).
  assert (Htarget : moveTo_toCylinder (set_stack (LUserdata a :: args) st)
                    = (target, set_stack (LUserdata a :: args) st)).
  { subst target. unfold moveTo_toCylinder, isUserdata. exec.
    destruct (default LNil (args !! 0%nat)); simpl; try done.
    destruct (getUserdataType _ _); simpl; try done.
    all: destruct (default LNil (args !! 0%nat)); simpl; try done; by case_decide. }
  assert (Hrun : r = match target with
                     | None => ([LNil], st)
                     | Some toCylinder =>
                         if bool_decide (parent it = Holder toCylinder) then ([LBoolean true], st)
                         else
                           let flags := (getNumberD uint32_t 3
                                           (Z.lor (Z.lor (Z.lor FLAG_NOLIMIT FLAG_IGNOREBLOCKITEM)
                                              FLAG_IGNOREBLOCKCREATURE) FLAG_IGNORENOTMOVABLE)
                                           (set_stack (LUserdata a :: args) st)).1 in
                           if bool_decide (parent it = VirtualCylinder) then
                             let added := Game_internalAddItem toCylinder item INDEX_WHEREEVER
                                            flags (game st) in
                             ([LBoolean (added.1 =? RETURNVALUE_NOERROR)], set_game added.2 st)
                           else
                             let moved := Game_internalMoveItem (parent it) toCylinder
                                            INDEX_WHEREEVER item (item_count it) flags (game st) in
                             ([LBoolean (moved.1.1 =? RETURNVALUE_NOERROR)],
                              set_udata
                                (match moved.1.2 with
                                 | Some moveItem =>
                                     alter (λ u, mkUserdata (Some moveItem) (metatable u)) a (udata st)
                                 | None => udata st
                                 end)
                                (set_game moved.2 st))
                     end).
  { subst r. unfold call, luaItemMoveTo.
    unfold bind at 1. rewrite getRawUserDataShared_run.
    replace (getRawUserDataShared 1 (set_stack (LUserdata a :: args) st)).1 with (Some a)
      by (exec; by rewrite decide_True).
    unfold bind at 1, deref, gets. simpl. rewrite Hu. simpl. rewrite Hp.
    unfold bind at 1, isRemoved, gets. simpl. rewrite Hlive.
    unfold bind at 1. rewrite Htarget.
    destruct target as [toCylinder|].
    - unfold bind at 1, readItem, gets. simpl. fold it.
      case_bool_decide.
      + exec. rewrite drop_last_cons. by destruct st.
      + unfold bind at 1. rewrite getNumberD_run.
        unfold bind at 1, readItem, gets. simpl. fold it.
        case_bool_decide.
        * unfold withGame. exec.
          destruct (Game_internalAddItem _ _ _ _ _) as [result g1]. simpl.
          rewrite drop_last_cons. by destruct st.
        * unfold withGame. exec.
          destruct (Game_internalMoveItem _ _ _ _ _ _ _) as [[result moveItem] g1]. simpl.
          destruct moveItem as [moveItem|]; simpl; rewrite drop_last_cons; by destruct st.
    - exec. rewrite drop_last_cons. by destruct st. }
  rewrite Hrun. clear Hrun r.
  split; [|split; [|split; [|split]]].
  - destruct target as [toCylinder|]; [|done].
    repeat case_bool_decide; simpl; try done.
  - by intros ->.
  - intros toCylinder -> Hparent. by rewrite bool_decide_true.
  - intros toCylinder -> Hparent.
    rewrite bool_decide_false by (rewrite Hparent; discriminate).
    rewrite bool_decide_true by done. simpl. split; [done|]. by eexists.
  - intros toCylinder -> Hne Hnv. rewrite !bool_decide_false by done. simpl.
    eexists. split; [reflexivity|]. split; [reflexivity|].
    destruct (Game_internalMoveItem _ _ _ _ _ _ _).1.2 as [moveItem|]; simpl.
    + by rewrite list_lookup_alter_eq, Hu.
    + by rewrite Hu.
Qed.

(** ** Missing handles, continued *)

Lemma getNumber_run (T : ctype) (arg : nat) (st : State) :
  getNumber T arg st = ((getNumber T arg st).1, st).
Proof. by exec. Qed.

(** X25. Each of the further bindings embedded in full, run on arguments
    whose first one resolves to no live object, executes exactly the
    null-handle branch listed for it; the two bindings that write the item
    templates leave the templates as they were. *)
Theorem further_binding_missingHandle (b : Binding) (args : list lua_value) (st : State) :
  null_handle args st →
  (∀ f : M nat,
     further_binding_model b = Some f →
     f (set_stack args st) = missingHandle b (set_stack args st)) ∧
  (∀ (f : W nat) (templates : Z → DecayTemplate),
     world_binding_model b = Some f →
     f (mkWorld (set_stack args st) templates)
     = liftW (missingHandle b) (mkWorld (set_stack args st) templates)).
Proof.
  intros Hnull. unfold null_handle in Hnull. split.
  - intros f Hb. destruct b; simplify_eq/=.
    all: unfold luaItemClone, luaItemGetUniqueId, luaItemGetActionId, luaItemSetActionId,
      luaItemHasAttribute, luaItemGetAttribute, luaItemRemoveCustomAttribute,
      luaItemSetOwner, luaItemGetOwnerId, luaItemIsOwner, luaItemMoveTo,
      luaMonsterSetSpawnPosition, luaVocationGetDemotion, luaVocationGetPromotion.
    all: unfold bind at 1; try rewrite getNumber_run.
    all: try (unfold bind at 1).
    all: try (by rewrite getUserdataShared_run, Hnull).
    pose proof (null_handle_raw _ _ Hnull) as Hraw.
    rewrite getRawUserDataShared_run.
    destruct (getRawUserDataShared 1 (set_stack args st)).1 as [p|]; [|done].
    unfold bind at 1, deref, gets; simpl; by rewrite Hraw.
  - intros f templates Hb. destruct b; simplify_eq/=.
    all: unfold luaItemDecay, luaItemSetDuration, liftW, bindW at 1; simpl.
    all: by rewrite getUserdataShared_run, Hnull.
Qed.

End MoreProperties.

(** * The further properties on the concrete world *)

Section MoreExamples.
#[local] Existing Instance sampleCollaborators.
#[local] Existing Instance sampleServices.

(** Action id 1000 written under the key "aid" and read back. *)
Lemma typed_attribute_set_get_witness :
  call luaItemGetAttribute [LUserdata 0; LString "aid"]
    (call luaItemSetAttribute [LUserdata 0; LString "aid"; num 1000] sampleState).2
  = ([num 1000],
     (call luaItemSetAttribute [LUserdata 0; LString "aid"; num 1000] sampleState).2).
Proof.
  exact (proj1 (proj1 (typed_attribute_set_get sampleState 0%nat
                         (mkUserdata (Some 1%nat) (Some "Item")) 1%nat (LString "aid")
                         eq_refl eq_refl) 1000 eq_refl eq_refl)).
Defined.

(** Removing the action id of the coins, which have none. *)
Lemma removed_attribute_is_absent_witness :
  (call luaItemRemoveAttribute [LUserdata 0; LString "aid"] sampleState).1 = [LBoolean true].
Proof.
  assert (Huid : attribute_of_key (LString "aid") ≠ UNIQUEID) by (vm_compute; discriminate).
  assert (Hts : attribute_of_key (LString "aid") ≠ DURATION_TIMESTAMP)
    by (vm_compute; discriminate).
  exact (proj1 (removed_attribute_is_absent sampleState 0%nat
                  (mkUserdata (Some 1%nat) (Some "Item")) 1%nat (LString "aid")
                  eq_refl eq_refl Huid Hts)).
Defined.

(** Action id 1000 set by setActionId: no notification is sent. *)
Lemma action_id_two_writers_witness :
  call luaItemSetActionId [LUserdata 0; num 1000] sampleState
  = ([LBoolean true],
     set_game
       (Game_updateItem 1 (Item_setAttribute ACTIONID (IntegerValue 1000)) sampleGame)
       sampleState).
Proof.
  exact (proj1 (action_id_two_writers sampleState 0%nat
                  (mkUserdata (Some 1%nat) (Some "Item")) 1%nat (LString "aid") 1000
                  eq_refl eq_refl eq_refl eq_refl)).
Defined.

(** The coins have no unique-id attribute and hold handle 70000. *)
Lemma unique_id_resolves_witness :
  (call luaItemGetUniqueId [LUserdata 0] sampleState).1 = [num 70000].
Proof.
  exact (proj1 (proj2 (unique_id_resolves sampleState 0%nat
                         (mkUserdata (Some 1%nat) (Some "Item")) 1%nat LNil
                         eq_refl eq_refl) eq_refl)).
Defined.

(** A boolean stored under key 5 and removed again. *)
Lemma custom_attribute_set_remove_witness :
  (call luaItemRemoveCustomAttribute [LUserdata 0; num 5]
     (call luaItemSetCustomAttribute [LUserdata 0; num 5; LBoolean true] sampleState).2).1
  = [LBoolean true].
Proof.
  exact (proj1 (custom_attribute_set_remove sampleState 0%nat
                  (mkUserdata (Some 1%nat) (Some "Item")) 1%nat (num 5) (LBoolean true)
                  "5" (CustomBool true) eq_refl eq_refl eq_refl eq_refl)).
Defined.

(** Key 7.9 is key 7. *)
Lemma custom_attribute_fractional_key_witness :
  call luaItemGetCustomAttribute [LUserdata 0; LNumber (Finite (79 # 10))] sampleState
  = call luaItemGetCustomAttribute [LUserdata 0; num 7] sampleState.
Proof.
  exact (proj1 (proj2 (custom_attribute_fractional_key sampleState (LUserdata 0) LNil
                         (79 # 10) eq_refl))).
Defined.

(** Ten coins split off the fifty: item 101 is on the virtual cylinder. *)
Lemma split_off_stack_detached_witness :
  parent (items (game (call luaItemSplit [LUserdata 0; num 10] sampleState).2) 101%nat)
  = VirtualCylinder.
Proof.
  assert (Hten : ∀ n : Z, Some 10 = Some n → in_range uint16_t n = true)
    by (intros n [= <-]; reflexivity).
  exact (proj1 (proj2 (proj2 (proj2 (proj2
           (split_off_stack_detached sampleState 0%nat
              (mkUserdata (Some 1%nat) (Some "Item")) 1%nat (Some 10) 101%nat
              (sample_clone 1 sampleGame).2
              eq_refl eq_refl eq_refl eq_refl eq_refl Hten eq_refl)))))).
Defined.

(** No template of the sample bears a name. *)
Lemma split_transform_refused_witness :
  call luaItemTransform [LUserdata 0; LString "golden coin"] sampleState
  = ([LNil], sampleState).
Proof.
  assert (Hname : ∀ n, LString "golden coin" ≠ LNumber n) by discriminate.
  exact (proj2 (proj2 (split_transform_refused sampleState 0%nat
                         (mkUserdata (Some 1%nat) (Some "Item")) 1%nat eq_refl eq_refl))
           (LString "golden coin") [] Hname eq_refl).
Defined.


(** The clone of the coins is handed over in the fourth userdata. *)
Lemma clone_is_detached_temporary_witness :
  (call luaItemClone [LUserdata 0] sampleState).1 = [LUserdata 3].
Proof.
  exact (proj1 (clone_is_detached_temporary sampleState 0%nat
                  (mkUserdata (Some 1%nat) (Some "Item")) 1%nat (Some 101%nat)
                  (sample_clone 1 sampleGame).2 eq_refl eq_refl eq_refl)).
Defined.

(** The number 0 is true in Lua: it sets the hazard flag. *)
Lemma hazard_setter_truth_value_witness :
  call luaMonsterHazard [LUserdata 2; num 0] sampleState
  = ([LBoolean true],
     set_game (Game_updateMonster 7 (Monster_setHazard true) sampleGame) sampleState).
Proof.
  exact (proj1 (hazard_setter_truth_value sampleState 2%nat
                  (mkUserdata (Some 7%nat) (Some "Monster")) 7%nat (num 0)
                  eq_refl eq_refl)).
Defined.

Lemma setForgeStack_returns_its_argument_witness :
  (call luaMonsterSetForgeStack [LUserdata 2; num 3] sampleState).1 = [num 3].
Proof.
  exact (proj1 (setForgeStack_returns_its_argument sampleState 2%nat
                  (mkUserdata (Some 7%nat) (Some "Monster")) 7%nat (num 3)
                  eq_refl eq_refl)).
Defined.

(** With rate 1 and schedule 100, the default 90 seconds give an interval
    of 90000. *)
Lemma spawn_interval_of_seconds_witness :
  call luaMonsterSetSpawnPosition [LUserdata 2] sampleState
  = ([LBoolean true],
     set_game
       (SpawnMonster_startSpawnMonsterCheck 0
          (SpawnMonster_addMonster 0 "Darklight Matter" (mkPosition 100 200 7)
             DIRECTION_NORTH 90000 sampleGame))
       sampleState).
Proof.
  assert (Hnone : ∀ n : Z, @None Z = Some n → in_range uint32_t n = true) by discriminate.
  exact (proj1 (spawn_interval_of_seconds sampleState 2%nat
                  (mkUserdata (Some 7%nat) (Some "Monster")) 7%nat None
                  eq_refl eq_refl Hnone)).
Defined.

(** Vocation 4 is promoted to vocation 8. *)
Lemma vocation_ladder_never_self_witness :
  call luaVocationGetPromotion [LUserdata 3] sampleState_vocation
  = ([LNil], sampleState_vocation) ∨
  ∃ other : nat,
    other ≠ 4%nat ∧
    call luaVocationGetPromotion [LUserdata 3] sampleState_vocation
    = ([LUserdata 4],
       set_udata (udata sampleState_vocation ++ [mkUserdata (Some other) (Some "Vocation")])
         sampleState_vocation).
Proof.
  exact (vocation_ladder_never_self sampleState_vocation 3%nat
           (mkUserdata (Some 4%nat) (Some "Vocation")) 4%nat luaVocationGetPromotion
           eq_refl eq_refl (or_intror eq_refl)).
Defined.

(** Vocation 4 comes from itself: it has no demotion; its promotion is
    vocation 8. *)
Lemma vocation_4_on_the_ladder :
  call luaVocationGetDemotion [LUserdata 3] sampleState_vocation
  = ([LNil], sampleState_vocation) ∧
  (call luaVocationGetPromotion [LUserdata 3] sampleState_vocation).1 = [LUserdata 4] ∧
  udata (call luaVocationGetPromotion [LUserdata 3] sampleState_vocation).2 !! 4%nat
  = Some (mkUserdata (Some 8%nat) (Some "Vocation")).
Proof. repeat split; vm_compute; reflexivity. Qed.

(** A first entry of script 5 on the sample. *)
Lemma startScriptInterface_enters_witness :
  ∃ st',
    startScriptInterface 5 sampleCallback sampleState
    = Some (true, mkCreatureCallback (m_targetCreature sampleCallback) true
                    (params sampleCallback), st') ∧
    envs st' = ScriptEnvironment_setScriptId 5 emptyScriptEnvironment :: envs sampleState ∧
    stack st' = stack sampleState ++ [LFunction 5] ∧
    game st' = game sampleState ∧
    logger st' = logger sampleState ∧
    envs (resetScriptEnv st').2 = envs sampleState.
Proof.
  assert (Hid : 5 ≠ -1) by discriminate.
  assert (Hdepth : (length (envs sampleState) < scriptEnvMax)%nat) by (vm_compute; lia).
  exact (proj1 (startScriptInterface_enters 5 sampleCallback sampleState Hid Hdepth)).
Defined.

(** A duration of one minute set on the coins is the decay time of every
    item of template 3031. *)
Lemma setDuration_writes_shared_template_witness :
  itemTypes (callW luaItemSetDuration [LUserdata 0; num 60000] sampleWorld).2 3031
  = mkDecayTemplate 0 60000 true.
Proof.
  exact (proj1 (proj2 (proj1 (setDuration_writes_shared_template sampleWorld 0%nat
                                (mkUserdata (Some 1%nat) (Some "Item")) 1%nat 60000
                                eq_refl eq_refl eq_refl)))).
Defined.

Lemma decay_writes_shared_template_witness :
  itemTypes (callW luaItemDecay [LUserdata 0; num 2000] sampleWorld).2 3031
  = mkDecayTemplate 2000 0 false.
Proof.
  exact (proj1 (proj2 (proj1 (decay_writes_shared_template sampleWorld 0%nat
                                (mkUserdata (Some 1%nat) (Some "Item")) 1%nat
                                eq_refl eq_refl) 2000 eq_refl))).
Defined.


(** The key [true] names no attribute. *)
Lemma typed_attribute_unknown_key_witness :
  call luaItemSetAttribute [LUserdata 0; LBoolean true; num 1] sampleState
  = ([LNil], sampleState).
Proof.
  exact (proj1 (typed_attribute_unknown_key sampleState 0%nat
                  (mkUserdata (Some 1%nat) (Some "Item")) 1%nat (LBoolean true) (num 1)
                  eq_refl eq_refl eq_refl)).
Defined.

(** setOwner(0) on the coins. *)
Lemma owner_id_zero_is_no_owner_witness :
  call luaItemSetOwner [LUserdata 0; num 0] sampleState = ([LBoolean false], sampleState).
Proof.
  assert (Hv : ∀ b, num 0 ≠ LUserdata b) by discriminate.
  exact (proj1 (proj1 (owner_id_zero_is_no_owner sampleState 0%nat
                         (mkUserdata (Some 1%nat) (Some "Item")) 1%nat (num 0)
                         eq_refl eq_refl Hv) eq_refl)).
Defined.

(** The seventeenth nested entry for a callback without target. *)
Lemma startScriptInterface_expired_target_witness :
  startScriptInterface 5 (mkCreatureCallback None false 0) sampleState_full = None.
Proof.
  assert (Hid : 5 ≠ -1) by discriminate.
  assert (Hdepth : (scriptEnvMax ≤ length (envs sampleState_full))%nat) by (vm_compute; lia).
  exact (startScriptInterface_expired_target 5 (mkCreatureCallback None false 0)
           sampleState_full Hid Hdepth eq_refl).
Defined.


(** The coins, held by container 0, moved to the cylinder the third userdata
    holds: the environments are as before. *)
Lemma moveTo_rebinds_userdata_only_witness :
  envs (call luaItemMoveTo [LUserdata 0; LUserdata 2] sampleState).2 = envs sampleState.
Proof.
  exact (proj1 (moveTo_rebinds_userdata_only sampleState 0%nat
                  (mkUserdata (Some 1%nat) (Some "Item")) 1%nat [LUserdata 2]
                  eq_refl eq_refl eq_refl)).
Defined.

(** After the move the coins are held by cylinder 7; moving them there again
    changes nothing. *)
Lemma coins_moved_to_cylinder_7 :
  parent (items (game (call luaItemMoveTo [LUserdata 0; LUserdata 2] sampleState).2) 1%nat)
  = Holder 7 ∧
  call luaItemMoveTo [LUserdata 0; LUserdata 2]
    (call luaItemMoveTo [LUserdata 0; LUserdata 2] sampleState).2
  = ([LBoolean true], (call luaItemMoveTo [LUserdata 0; LUserdata 2] sampleState).2).
Proof. split; vm_compute; reflexivity. Qed.

(** The clone of a userdata that holds the null pointer. *)
Lemma further_binding_missingHandle_witness :
  luaItemClone (set_stack [LUserdata 1] sampleState)
  = missingHandle ItemClone (set_stack [LUserdata 1] sampleState).
Proof.
  exact (proj1 (further_binding_missingHandle ItemClone [LUserdata 1] sampleState eq_refl)
           luaItemClone eq_refl).
Defined.

End MoreExamples.
